(** * A shallow embedding of the storefront backend (src/index.ts)

    The server bridges a storefront to a payment gateway and an SMTP relay.
    Its four request handlers are embedded here as programs over an explicit
    signature of external calls:

    - POST /api/contact              ([Contact.handler])
    - POST /create-checkout-session  ([Checkout.handler])
    - GET  /verify-payment           ([Verify.handler])
    - POST /send-receipt             ([Receipt.handler])

    JavaScript strings are sequences of UTF-16 code units, JavaScript numbers
    are IEEE 754 binary64 values (the kernel's primitive floats), awaited
    calls are nodes of a finite interaction tree, and [try]/[catch] is an
    error monad on top of it.

    Request bodies have the shape their TypeScript interfaces declare, except
    that a field of the contact form may be absent. What the platform
    supplies and no property below depends on is a parameter: the fixed
    markup of the mail templates, the wall clock, and the decimal rendering
    of Numbers that are not small integers. Console output is not modelled,
    and building a transporter, which opens no connection, is not a call. *)

From Stdlib Require Import List String Ascii Bool ZArith NArith QArith Qround Floats Lia.
From Stdlib Require Import DecimalString.
Import ListNotations.

Set Warnings "-inexact-float,-register-all".
Close Scope Q_scope.

(* ===================================================================== *)
(** * JavaScript strings *)
(* ===================================================================== *)

Definition code_unit := N.
Definition jsstring := list code_unit.

(** An ASCII literal of the source, as code units. *)
Definition js (s : string) : jsstring :=
  map N_of_ascii (list_ascii_of_string s).

Fixpoint jsstring_eqb (a b : jsstring) : bool :=
  match a, b with
  | [], [] => true
  | x :: a', y :: b' => N.eqb x y && jsstring_eqb a' b'
  | _, _ => false
  end.

(** Truthiness of a string: every string but the empty one. *)
Definition truthy (s : jsstring) : bool :=
  match s with [] => false | _ :: _ => true end.

(** Truthiness of a value that is either [undefined] or a string
    (a destructured body field, an entry of [process.env]). *)
Definition truthy_opt (o : option jsstring) : bool :=
  match o with Some s => truthy s | None => false end.

(** [a || b] on such values. *)
Definition or_else (a b : option jsstring) : option jsstring :=
  if truthy_opt a then a else b.

(** Interpolation [${v}] of such a value in a template literal. *)
Definition interp (o : option jsstring) : jsstring :=
  match o with Some s => s | None => js "undefined" end.

(** [Array.prototype.includes] on an array of strings. *)
Definition Array_includes (l : list jsstring) (s : jsstring) : bool :=
  existsb (jsstring_eqb s) l.

Fixpoint startsWith (s p : jsstring) : bool :=
  match p, s with
  | [], _ => true
  | x :: p', y :: s' => N.eqb x y && startsWith s' p'
  | _ :: _, [] => false
  end.

(** [String.prototype.includes]: [search] occurs in [s] as a substring. *)
Fixpoint String_includes (s search : jsstring) : bool :=
  startsWith s search
  || match s with
     | [] => false
     | _ :: s' => String_includes s' search
     end.

(** [s.replace(/,/g, '<br>')]: every comma becomes a line break tag. *)
Definition comma : code_unit := 44%N.

Definition replace_commas (s : jsstring) : jsstring :=
  flat_map (fun c => if N.eqb c comma then js "<br>" else [c]) s.

(** [Array.prototype.join('')]. *)
Definition join (l : list jsstring) : jsstring := List.concat l.

(** Decimal digits of a natural number ([items.length.toString()]). *)
Definition nat_toString (n : nat) : jsstring :=
  js (NilZero.string_of_uint (Nat.to_uint n)).

(* ===================================================================== *)
(** * JavaScript numbers *)
(* ===================================================================== *)

Module Number.

Local Open Scope Z_scope.

(** The integer nearest to [(-1)^s * m * 2^e * scale], the larger one on a
    tie (nearest toward plus infinity), computed exactly. *)
Definition round_scaled (scale : Z) (s : bool) (m : positive) (e : Z) : Z :=
  let v := (if s then - Z.pos m else Z.pos m) * scale in
  if 0 <=? e then v * 2 ^ e
  else (2 * v + 2 ^ (- e)) / 2 ^ (- e + 1).

Definition integral (m : positive) (e : Z) : bool :=
  (0 <=? e) || (Z.pos m mod 2 ^ (- e) =? 0).

(** The Number for an integer of magnitude below 2^53 (exact there). *)
Definition of_Z (z : Z) : float :=
  SF2Prim (binary_normalize prec emax z 0 false).

(** [Math.round(n)] (ECMAScript 21.3.2.28): [n] itself when it is not
    finite or is integral; +0 for 0 < n < 0.5; -0 for -0.5 <= n < 0; else
    the integral Number closest to [n], the one closer to plus infinity in
    the case of a tie. *)
Definition Math_round (n : float) : float :=
  match Prim2SF n with
  | S754_finite s m e =>
      if integral m e then n
      else
        let z := round_scaled 1 s m e in
        if z =? 0 then (if s then neg_zero else zero) else of_Z z
  | _ => n
  end.

(** The exact rational value of a finite Number. *)
Definition value (s : bool) (m : positive) (e : Z) : Q :=
  let z := if s then Z.neg m else Z.pos m in
  if 0 <=? e then inject_Z (z * 2 ^ e)
  else Qmake z (Z.to_pos (2 ^ (- e))).

(** The exact rational value of a Number, if it is finite. *)
Definition exact (x : float) : option Q :=
  match Prim2SF x with
  | S754_zero _ => Some 0%Q
  | S754_finite s m e => Some (value s m e)
  | _ => None
  end.

(** Rounding to the nearest integer, halves away from zero: the rounding
    the specification names, on exact rationals. *)
Definition round_half_away_from_zero (q : Q) : Z :=
  if Qle_bool 0 q then Qfloor (q + (1 # 2))
  else Z.opp (Qfloor (Qopp q + (1 # 2))).

Definition digits (n : Z) : jsstring :=
  js (NilZero.string_of_uint (N.to_uint (Z.to_N n))).

(** Steps 11.a-11.c of [Number.prototype.toFixed]: the digits of [n] with
    a decimal point before the last [f] of them, zero-padded on the left
    to [f + 1] digits. *)
Definition fixed_digits (n : Z) (f : nat) : jsstring :=
  let m := digits n in
  let k := List.length m in
  let m := if (k <=? f)%nat then repeat 48%N (f + 1 - k) ++ m else m in
  let k := List.length m in
  match f with
  | O => m
  | _ => firstn (k - f) m ++ js "." ++ skipn (k - f) m
  end.

Section ToString.

(** [Number::toString] in radix 10 (the shortest digits that read back
      as the same Number), which the platform supplies. *)
Variable Number_toString : float -> jsstring.

(** [x.toFixed(f)] (ECMAScript 21.1.3.3) for [0 <= f <= 100]. *)
Definition toFixed (x : float) (f : nat) : jsstring :=
    match Prim2SF x with
    | S754_nan => js "NaN"
    | S754_infinity s => if s then js "-Infinity" else js "Infinity"
    | S754_zero _ => fixed_digits 0 f
    | S754_finite s m e =>
        if (0 <=? e) && (10 ^ 21 <=? Z.pos m * 2 ^ e)
        then (if s then js "-" else []) ++ Number_toString (abs x)
        else (if s then js "-" else [])
               ++ fixed_digits (round_scaled (10 ^ Z.of_nat f) false m e) f
    end.

End ToString.

End Number.


(* ===================================================================== *)
(** * Regular expressions, matched by derivatives *)
(* ===================================================================== *)

Module RegExp.

Inductive regex : Type :=
| Void
| Eps
| Class (p : code_unit -> bool)
| Cat (r1 r2 : regex)
| Alt (r1 r2 : regex)
| Star (r : regex).

(** [r+] *)
Definition Plus (r : regex) : regex := Cat r (Star r).

Fixpoint nullable (r : regex) : bool :=
  match r with
  | Void => false
  | Eps => true
  | Class _ => false
  | Cat r1 r2 => nullable r1 && nullable r2
  | Alt r1 r2 => nullable r1 || nullable r2
  | Star _ => true
  end.

Fixpoint deriv (c : code_unit) (r : regex) : regex :=
  match r with
  | Void => Void
  | Eps => Void
  | Class p => if p c then Eps else Void
  | Cat r1 r2 =>
      if nullable r1 then Alt (Cat (deriv c r1) r2) (deriv c r2)
      else Cat (deriv c r1) r2
  | Alt r1 r2 => Alt (deriv c r1) (deriv c r2)
  | Star r1 => Cat (deriv c r1) (Star r1)
  end.

(** [/^r$/.test(s)]: the whole of [s] matches [r]. *)
Fixpoint test (r : regex) (s : jsstring) : bool :=
  match s with
  | [] => nullable r
  | c :: s' => test (deriv c r) s'
  end.

(** The language of a regular expression, for stating what [test] decides. *)
Inductive matches : regex -> jsstring -> Prop :=
| m_eps : matches Eps []
| m_class p c : p c = true -> matches (Class p) [c]
| m_cat r1 r2 s1 s2 :
    matches r1 s1 -> matches r2 s2 -> matches (Cat r1 r2) (s1 ++ s2)
| m_alt_l r1 r2 s : matches r1 s -> matches (Alt r1 r2) s
| m_alt_r r1 r2 s : matches r2 s -> matches (Alt r1 r2) s
| m_star_nil r : matches (Star r) []
| m_star_cons r s1 s2 :
    matches r s1 -> matches (Star r) s2 -> matches (Star r) (s1 ++ s2).

(** The class escape [\s]: WhiteSpace and LineTerminator code points. *)
Definition white_space (c : code_unit) : bool :=
  existsb (N.eqb c)
    [0x9; 0xA; 0xB; 0xC; 0xD; 0x20; 0xA0; 0x1680; 0x2028; 0x2029; 0x202F;
     0x205F; 0x3000; 0xFEFF]%N
  || ((0x2000 <=? c) && (c <=? 0x200A))%N.

Definition at_sign : code_unit := 64%N.
Definition full_stop : code_unit := 46%N.

(** The class [[^\s@]]. *)
Definition not_space_at (c : code_unit) : bool :=
  negb (white_space c || N.eqb c at_sign).

End RegExp.

(* ===================================================================== *)
(** * Values exchanged with the outside *)
(* ===================================================================== *)

(** JSON bodies of responses. *)
Inductive json : Type :=
| JNull
| JBool (b : bool)
| JNumber (x : float)
| JString (s : jsstring)
| JObject (fields : list (string * json)).

Definition JOption (o : option jsstring) : json :=
  match o with Some s => JString s | None => JNull end.

(** What [res.status(code).json(body)] sends; [res.json(body)] leaves the
    status at 200. *)
Record response : Type := { status : nat; body : json }.

Definition res_status_json (code : nat) (b : json) : response :=
  {| status := code; body := b |}.

Definition res_json (b : json) : response := res_status_json 200 b.

(** The entries of [process.env] the handlers read. *)
Record Env : Type := {
  EMAIL_USER : option jsstring;
  EMAIL_PASS : option jsstring;
  ADMIN_EMAIL : option jsstring
}.

(** [!process.env.EMAIL_USER || !process.env.EMAIL_PASS], the test both mail
    handlers make before they build a transporter. *)
Definition unconfigured (env : Env) : bool :=
  negb (truthy_opt (EMAIL_USER env)) || negb (truthy_opt (EMAIL_PASS env)).

Record CartItem : Type := {
  title : jsstring;
  price : float;
  quantity : float
}.

Module Stripe.

Record ProductData : Type := {
  name : jsstring;
  description : option jsstring
}.

Record PriceData : Type := {
  currency : jsstring;
  product_data : ProductData;
  unit_amount : float
}.

Record LineItem : Type := {
  price_data : PriceData;
  quantity : float
}.

Record SessionCreateParams : Type := {
  payment_method_types : list jsstring;
  line_items : list LineItem;
  mode : jsstring;
  customer_email : jsstring;
  success_url : jsstring;
  cancel_url : jsstring;
  locale : jsstring;
  metadata : list (string * jsstring)
}.

(** The fields of a gateway session that the handlers read. *)
Record Session : Type := {
  id : jsstring;
  url : option jsstring;
  payment_status : jsstring;
  amount_total : option float;
  session_customer_email : option jsstring;
  session_metadata : json
}.

End Stripe.

Module Mail.

(** The message object handed to [transporter.sendMail]. *)
Record Options : Type := {
  from : jsstring;
  to : option jsstring;
  subject : jsstring;
  replyTo : option jsstring;
  html : jsstring;
  text : option jsstring
}.

End Mail.

(* ===================================================================== *)
(** * Awaited calls, exceptions and runs *)
(* ===================================================================== *)

(** A thrown value, as far as the [catch] clauses look at it:
    [error instanceof Error ? error.message : 'Unknown error occurred']. *)
Inductive thrown : Type :=
| ErrorObject (message : jsstring)
| NotAnError.

Definition errorMessage (error : thrown) : jsstring :=
  match error with
  | ErrorObject message => message
  | NotAnError => js "Unknown error occurred"
  end.

(** How a promise settles. *)
Inductive settled (X : Type) : Type :=
| Fulfilled (x : X)
| Rejected (reason : thrown).
Arguments Fulfilled {X} x.
Arguments Rejected {X} reason.

(** The calls that leave the process: the SMTP relay and the gateway. *)
Inductive ext : Type -> Type :=
| transporter_verify : ext unit
| transporter_sendMail (mailOptions : Mail.Options) : ext unit
| sessions_create (params : Stripe.SessionCreateParams) : ext Stripe.Session
| sessions_retrieve (id : jsstring) (expand : list jsstring)
    : ext Stripe.Session.

(** A computation: a finite tree of awaited calls ending in a result. *)
Inductive prog (R : Type) : Type :=
| Ret (r : R)
| Await (X : Type) (e : ext X) (k : settled X -> prog R).
Arguments Ret {R} r.
Arguments Await {R X} e k.

(** How a statement of a handler completes: normally; having sent the
    response, after which the handler runs no further statement (this is
    [return res.status(c).json(b)], and also the [res.json(b)] that ends a
    handler); or by throwing. *)
Inductive completion (A : Type) : Type :=
| Normal (a : A)
| Responded (r : response)
| Throw (error : thrown).
Arguments Normal {A} a.
Arguments Responded {A} r.
Arguments Throw {A} error.

Definition exc (A : Type) : Type := prog (completion A).

Definition ret {A} (a : A) : exc A := Ret (Normal a).
Definition respond {A} (r : response) : exc A := Ret (Responded r).
Definition throw {A} (error : thrown) : exc A := Ret (Throw error).

Fixpoint bind {A B} (p : exc A) (f : A -> exc B) : exc B :=
  match p with
  | Ret (Normal a) => f a
  | Ret (Responded r) => Ret (Responded r)
  | Ret (Throw error) => Ret (Throw error)
  | Await e k => Await e (fun o => bind (k o) f)
  end.

(** [await call]: the value of a fulfilled promise, a throw on rejection. *)
Definition await {X} (e : ext X) : exc X :=
  Await e (fun o =>
    match o with
    | Fulfilled x => ret x
    | Rejected reason => throw reason
    end).

(** [try { body } catch (error) { handler error }]. *)
Fixpoint try_catch {A} (body : exc A) (handler : thrown -> exc A) : exc A :=
  match body with
  | Ret (Throw error) => handler error
  | Ret c => Ret c
  | Await e k => Await e (fun o => try_catch (k o) handler)
  end.

(** [if (c) { s }] *)
Definition when (c : bool) (s : exc unit) : exc unit :=
  if c then s else ret tt.

Declare Scope js_scope.
Delimit Scope js_scope with js.
Notation "x <- c ;; k" := (bind c (fun x => k))
  (at level 61, c at next level, right associativity) : js_scope.
Notation "c ;;; k" := (bind c (fun _ => k))
  (at level 61, right associativity) : js_scope.

(** One call made during a run. *)
Inductive call : Type :=
| Call (X : Type) (e : ext X).
Arguments Call {X} e.

(** The outside world: how each call settles, given the calls made so far. *)
Definition world : Type := forall X : Type, list call -> ext X -> settled X.

(** Running a handler against a world: the calls it made, in order, and its
    result. *)
Fixpoint run_from {R} (w : world) (made : list call) (p : prog R)
  : list call * R :=
  match p with
  | Ret r => (made, r)
  | Await e k => run_from w (made ++ [Call e]) (k (w _ made e))
  end.

Definition run {R} (w : world) (p : prog R) : list call * R :=
  run_from w [] p.

Definition calls {R} (w : world) (p : prog R) : list call := fst (run w p).
Definition result {R} (w : world) (p : prog R) : R := snd (run w p).

(** The mails handed to [sendMail] among a list of calls, in order. *)
Definition sent_mail (c : call) : list Mail.Options :=
  match c with
  | Call e =>
      match e with
      | transporter_sendMail m => [m]
      | _ => []
      end
  end.

Definition mails (l : list call) : list Mail.Options := flat_map sent_mail l.

(** The parameters of the session-creation calls among a list of calls. *)
Definition created_session (c : call) : list Stripe.SessionCreateParams :=
  match c with
  | Call e =>
      match e with
      | sessions_create p => [p]
      | _ => []
      end
  end.

Definition sessions_created (l : list call) : list Stripe.SessionCreateParams :=
  flat_map created_session l.

(* ===================================================================== *)
(** * Template literals *)
(* ===================================================================== *)

(** The long template literals of the mail bodies.  Their fixed markup (the
    text between two interpolations) is left to the platform: [markup t i] is
    the [i]-th such piece of template [t], in source order. *)
Inductive template : Type :=
| contact_admin_html
| contact_admin_text
| contact_user_html
| contact_user_text
| receipt_customer_html
| receipt_customer_item
| receipt_admin_html.

Definition dquote : jsstring := [34%N].

Section Templates.

Variable markup : template -> nat -> jsstring.

Fixpoint fill_from (t : template) (i : nat) (values : list jsstring)
  : jsstring :=
  match values with
  | [] => markup t i
  | v :: values' => markup t i ++ v ++ fill_from t (S i) values'
  end.

(** The template literal [t] with its interpolations, in source order. *)
Definition fill (t : template) (values : list jsstring) : jsstring :=
  fill_from t 0 values.

End Templates.

(* ===================================================================== *)
(** * POST /api/contact *)
(* ===================================================================== *)

Module Contact.

Import RegExp.
Local Open Scope js_scope.

(** The destructured body; a field that the body lacks is [undefined]. *)
Record ContactFormRequest : Type := {
  name : option jsstring;
  email : option jsstring;
  subject : option jsstring;
  message : option jsstring
}.

(** [/^[^\s@]+@[^\s@]+\.[^\s@]+$/] *)
Definition emailRegex : regex :=
  Cat (Plus (Class not_space_at))
    (Cat (Class (N.eqb at_sign))
       (Cat (Plus (Class not_space_at))
          (Cat (Class (N.eqb full_stop))
             (Plus (Class not_space_at))))).

(** The strings local@domain.tld that the pattern is meant to accept: three
    non-empty parts free of white space and of at signs, the second and the
    third separated by a full stop (either may contain further ones). *)
Definition local_at_domain_tld (s : jsstring) : Prop :=
  exists local domain tld,
    s = local ++ [at_sign] ++ domain ++ [full_stop] ++ tld
    /\ local <> [] /\ domain <> [] /\ tld <> []
    /\ Forall (fun c => not_space_at c = true) (local ++ domain ++ tld).

Definition failure (error : string) : json :=
  JObject [("success", JBool false); ("error", JString (js error))]%string.

Section Handler.

Variable markup : template -> nat -> jsstring.

(** [new Date().toLocaleString()], at its [n]-th evaluation in a request. *)
Variable Date_toLocaleString : nat -> jsstring.

Variable env : Env.
Variable req : ContactFormRequest.

Definition adminEmail : option jsstring :=
  or_else (ADMIN_EMAIL env) (EMAIL_USER env).

Definition adminMailOptions : Mail.Options :=
  {| Mail.from := dquote ++ js "Adisa Olashile Contact Form" ++ dquote
                    ++ js " <" ++ interp (EMAIL_USER env) ++ js ">";
     Mail.to := adminEmail;
     Mail.subject := js "New Contact Form: " ++ interp (subject req);
     Mail.replyTo := email req;
     Mail.html :=
       fill markup contact_admin_html
         [interp (name req); interp (email req); interp (subject req);
          interp (message req); Date_toLocaleString 0; interp (name req)];
     Mail.text :=
       Some (fill markup contact_admin_text
               [interp (name req); interp (email req); interp (subject req);
                Date_toLocaleString 1; interp (message req);
                interp (name req)]) |}.

Definition userMailOptions : Mail.Options :=
  {| Mail.from := dquote ++ js "Adisa Olashile" ++ dquote
                    ++ js " <" ++ interp (EMAIL_USER env) ++ js ">";
     Mail.to := email req;
     Mail.subject := js "Thank You for Contacting Adisa Olashile!";
     Mail.replyTo := None;
     Mail.html :=
       fill markup contact_user_html
         [interp (name req); interp (name req); interp (subject req);
          interp (message req)];
     Mail.text :=
       Some (fill markup contact_user_text
               [interp (name req); interp (subject req);
                interp (message req)]) |}.

(** The message chosen in the [catch] clause. *)
Definition userErrorMessage (errorMessage : jsstring) : string :=
  if String_includes errorMessage (js "Invalid login")
     || String_includes errorMessage (js "BadCredentials")
  then "Email authentication failed. Please contact administrator."
  else if String_includes errorMessage (js "EAUTH")
  then "Email authentication failed. Please check your email configuration."
  else if String_includes errorMessage (js "ECONNREFUSED")
  then "Unable to connect to email server. Please try again later."
  else "Failed to send message. Please try again later.".

Definition handler : exc unit :=
  try_catch
    ((* Validation *)
     when (negb (truthy_opt (name req)) || negb (truthy_opt (email req))
           || negb (truthy_opt (subject req))
           || negb (truthy_opt (message req)))
       (respond (res_status_json 400 (failure "All fields are required"))) ;;;
     (* Email validation *)
     when (negb (test emailRegex (interp (email req))))
       (respond (res_status_json 400 (failure "Invalid email address"))) ;;;
     (* Check email configuration *)
     when (negb (truthy_opt (EMAIL_USER env))
           || negb (truthy_opt (EMAIL_PASS env)))
       (respond (res_status_json 500
                   (failure "Email service is not configured"))) ;;;
     (* Test the connection *)
     try_catch (await transporter_verify)
       (fun verifyError =>
          respond (res_status_json 500
            (failure "Email service temporarily unavailable. Please try again later."))) ;;;
     (* Send both emails *)
     await (transporter_sendMail adminMailOptions) ;;;
     await (transporter_sendMail userMailOptions) ;;;
     respond (res_status_json 200
       (JObject
          [("success", JBool true);
           ("message", JString (js "Message sent successfully! You should receive a confirmation email shortly."))]%string)))
    (fun error =>
       respond (res_status_json 500
                  (failure (userErrorMessage (errorMessage error))))).

(** The two conditions on the request that the handler tests first, in the
    order it tests them. *)
Definition missing : bool :=
  negb (truthy_opt (name req)) || negb (truthy_opt (email req))
  || negb (truthy_opt (subject req)) || negb (truthy_opt (message req)).

Definition malformed : bool := negb (test emailRegex (interp (email req))).

End Handler.

(** The messages with which the handler answers a failed call to the relay:
    the one of the inner [catch] and the four of the outer one. *)
Definition public_messages : list string :=
  ["Email service temporarily unavailable. Please try again later.";
   "Email authentication failed. Please contact administrator.";
   "Email authentication failed. Please check your email configuration.";
   "Unable to connect to email server. Please try again later.";
   "Failed to send message. Please try again later."]%string.

End Contact.

(* ===================================================================== *)
(** * POST /create-checkout-session *)
(* ===================================================================== *)

Module Checkout.

Local Open Scope js_scope.

Record CreateCheckoutSessionRequest : Type := {
  items : list CartItem;
  customerEmail : jsstring;
  successUrl : jsstring;
  cancelUrl : jsstring;
  currency : jsstring;
  currencyMultiplier : float
}.

Definition supportedCurrencies : list jsstring :=
  [js "USD"; js "GBP"; js "EUR"; js "CAD"; js "AUD"; js "NGN"].

Definition shippingRates : list (jsstring * float) :=
  [(js "USD", 10%float); (js "GBP", 7.9%float); (js "NGN", 15000%float)].

(** [o[key]] on an object literal with Number properties, for a key that is
    one of the supported currency codes; [None] is [undefined]. *)
Fixpoint property (o : list (jsstring * float)) (key : jsstring)
  : option float :=
  match o with
  | [] => None
  | (k, v) :: o' => if jsstring_eqb k key then Some v else property o' key
  end.

(** [v || d] for [v] a Number or [undefined]: zeros and NaN are falsy. *)
Definition number_or (v : option float) (d : float) : float :=
  match v with
  | Some x => if is_zero x || is_nan x then d else x
  | None => d
  end.

Section Handler.

Variable req : CreateCheckoutSessionRequest.

Definition stripeCurrency : jsstring :=
  if Array_includes supportedCurrencies (currency req)
  then currency req else js "USD".

Definition lineItem (item : CartItem) : Stripe.LineItem :=
  {| Stripe.price_data :=
       {| Stripe.currency := stripeCurrency;
          Stripe.product_data :=
            {| Stripe.name := title item; Stripe.description := None |};
          Stripe.unit_amount :=
            Number.Math_round (price item * currencyMultiplier req) |};
     Stripe.quantity := quantity item |}.

Definition shippingAmount : float :=
  number_or (property shippingRates stripeCurrency) 10.

Definition shippingItem : Stripe.LineItem :=
  {| Stripe.price_data :=
       {| Stripe.currency := stripeCurrency;
          Stripe.product_data :=
            {| Stripe.name := js "Shipping";
               Stripe.description := Some (js "Standard shipping fee") |};
          Stripe.unit_amount :=
            Number.Math_round (shippingAmount * currencyMultiplier req) |};
     Stripe.quantity := 1 |}.

(** [items.map(...)] followed by [lineItems.push(...)]. *)
Definition lineItems : list Stripe.LineItem :=
  map lineItem (items req) ++ [shippingItem].

Definition params : Stripe.SessionCreateParams :=
  {| Stripe.payment_method_types := [js "card"];
     Stripe.line_items := lineItems;
     Stripe.mode := js "payment";
     Stripe.customer_email := customerEmail req;
     Stripe.success_url := successUrl req;
     Stripe.cancel_url := cancelUrl req;
     Stripe.locale := js "auto";
     Stripe.metadata :=
       [("customer_email", customerEmail req);
        ("items_count", nat_toString (List.length (items req)));
        ("original_currency", currency req)]%string |}.

Definition handler : exc unit :=
  try_catch
    (session <- await (sessions_create params) ;;
     respond (res_json
       (JObject [("id", JString (Stripe.id session));
                 ("url", JOption (Stripe.url session))]%string)))
    (fun error =>
       respond (res_status_json 500
         (JObject [("error", JString (errorMessage error))]%string))).

(** The line items that reach the gateway in a run of the handler. *)
Definition forwarded (w : world) : list Stripe.LineItem :=
  flat_map Stripe.line_items (sessions_created (calls w handler)).

End Handler.

End Checkout.

(* ===================================================================== *)
(** * GET /verify-payment *)
(* ===================================================================== *)

Module Verify.

Local Open Scope js_scope.

(** A value of [req.query]: absent, one string, or (for a repeated or a
    bracketed parameter) an array or a nested object. *)
Inductive query_value : Type :=
| q_undefined
| q_string (s : jsstring)
| q_array (l : list query_value)
| q_object (fields : list (jsstring * query_value)).

(** [!v]: only [undefined] and the empty string are falsy here. *)
Definition falsy (v : query_value) : bool :=
  match v with
  | q_undefined => true
  | q_string s => negb (truthy s)
  | _ => false
  end.

(** [typeof v === 'string'] *)
Definition typeof_string (v : query_value) : bool :=
  match v with q_string _ => true | _ => false end.

(** [v] where the checker has narrowed it to a string. *)
Definition as_string (v : query_value) : jsstring :=
  match v with q_string s => s | _ => [] end.

Definition JAmount (o : option float) : json :=
  match o with Some x => JNumber x | None => JNull end.

Section Handler.

Variable session_id : query_value.

Definition handler : exc unit :=
  try_catch
    (when (falsy session_id || negb (typeof_string session_id))
       (respond (res_status_json 400
          (JObject [("error", JString (js "Session ID is required"))]%string))) ;;;
     session <- await (sessions_retrieve (as_string session_id)
                         [js "payment_intent"]) ;;
     respond (res_json
       (JObject
          [("id", JString (Stripe.id session));
           ("payment_status", JString (Stripe.payment_status session));
           ("amount_total", JAmount (Stripe.amount_total session));
           ("customer_email", JOption (Stripe.session_customer_email session));
           ("metadata", Stripe.session_metadata session)]%string)))
    (fun error =>
       respond (res_status_json 500
         (JObject [("error", JString (errorMessage error))]%string))).

End Handler.

End Verify.

(* ===================================================================== *)
(** * POST /send-receipt *)
(* ===================================================================== *)

Module Receipt.

Local Open Scope js_scope.

Record SendReceiptRequest : Type := {
  customerEmail : jsstring;
  orderId : jsstring;
  items : list CartItem;
  total : float;
  customerName : jsstring;
  shippingAddress : jsstring
}.

Section Handler.

Variable markup : template -> nat -> jsstring.
Variable Number_toString : float -> jsstring.

(** [new Date().toLocaleDateString('en-GB', ...)] and
    [new Date().toLocaleString()] at the time of the request. *)
Variable Date_toLocaleDateString : jsstring.
Variable Date_toLocaleString : jsstring.

Variable env : Env.
Variable req : SendReceiptRequest.

Definition toFixed : float -> nat -> jsstring :=
  Number.toFixed Number_toString.

(** One entry of the order summary in the customer's mail. *)
Definition customerItem (item : CartItem) : jsstring :=
  fill markup receipt_customer_item
    [title item;
     Number_toString (quantity item);
     toFixed (price item * quantity item) 2;
     toFixed (price item) 2].

Definition customerMailOptions : Mail.Options :=
  {| Mail.from := dquote ++ js "Adisa Olashile Art" ++ dquote
                    ++ js " <" ++ interp (EMAIL_USER env) ++ js ">";
     Mail.to := Some (customerEmail req);
     Mail.subject := js "Order Confirmation - " ++ orderId req;
     Mail.replyTo := None;
     Mail.html :=
       fill markup receipt_customer_html
         [orderId req; customerName req; Date_toLocaleDateString;
          join (map customerItem (items req));
          toFixed (total req) 2;
          replace_commas (shippingAddress req)];
     Mail.text := None |}.

(** One entry of the item list in the site owner's mail. *)
Definition adminItem (item : CartItem) : jsstring :=
  js "<li>" ++ title item ++ js " - $" ++ toFixed (price item) 2
    ++ js " x " ++ Number_toString (quantity item)
    ++ js " = $" ++ toFixed (price item * quantity item) 2 ++ js "</li>".

(** The shopping bags emoji with its variation selector, U+1F6CD U+FE0F. *)
Definition shopping_bags : jsstring := [0xD83D; 0xDECD; 0xFE0F]%N.

Definition adminMailOptions : Mail.Options :=
  {| Mail.from := dquote ++ js "Adisa Olashile Orders" ++ dquote
                    ++ js " <" ++ interp (EMAIL_USER env) ++ js ">";
     Mail.to := or_else (ADMIN_EMAIL env) (EMAIL_USER env);
     Mail.subject :=
       shopping_bags ++ js " New Order Received - " ++ orderId req;
     Mail.replyTo := None;
     Mail.html :=
       fill markup receipt_admin_html
         [orderId req; customerName req; customerEmail req;
          toFixed (total req) 2; Date_toLocaleString;
          replace_commas (shippingAddress req);
          nat_toString (List.length (items req));
          join (map adminItem (items req))];
     Mail.text := None |}.

Definition handler : exc unit :=
  try_catch
    (when (negb (truthy_opt (EMAIL_USER env))
           || negb (truthy_opt (EMAIL_PASS env)))
       (throw (ErrorObject (js "Email configuration is missing"))) ;;;
     (* Send both emails *)
     await (transporter_sendMail customerMailOptions) ;;;
     await (transporter_sendMail adminMailOptions) ;;;
     respond (res_json
       (JObject [("success", JBool true);
                 ("message", JString (js "Receipts sent successfully"));
                 ("orderId", JString (orderId req))]%string)))
    (fun error =>
       respond (res_status_json 500
         (JObject [("error", JString (errorMessage error))]%string))).

End Handler.

End Receipt.

(* ===================================================================== *)
(** * Sample platforms, worlds and requests *)
(* ===================================================================== *)

Module Sample.

Definition markup (t : template) (i : nat) : jsstring := js "|".
Definition Number_toString (x : float) : jsstring := js "#".
Definition Date_toLocaleString (n : nat) : jsstring := js "1/2/2026, 10:00:00".
Definition today : jsstring := js "Monday 2 February 2026".
Definition now : jsstring := js "2/2/2026, 10:00:00".

Definition session : Stripe.Session :=
  {| Stripe.id := js "cs_test_1";
     Stripe.url := Some (js "https://checkout.example/cs_test_1");
     Stripe.payment_status := js "unpaid";
     Stripe.amount_total := Some 15100%float;
     Stripe.session_customer_email := Some (js "buyer@example.com");
     Stripe.session_metadata := JNull |}.

Definition fulfilled (X : Type) (e : ext X) : X :=
  match e in ext X return X with
  | transporter_verify => tt
  | transporter_sendMail _ => tt
  | sessions_create _ => session
  | sessions_retrieve _ _ => session
  end.

(** The world in which every call succeeds. *)
Definition all_fulfilled : world := fun X made e => Fulfilled (fulfilled X e).

(** The world in which the call made after [n] earlier ones is rejected and
    every other call succeeds. *)
Definition reject_nth (n : nat) (reason : thrown) : world :=
  fun X made e =>
    if Nat.eqb (List.length made) n then Rejected reason
    else Fulfilled (fulfilled X e).

Definition env : Env :=
  {| EMAIL_USER := Some (js "shop@example.com");
     EMAIL_PASS := Some (js "hunter2");
     ADMIN_EMAIL := Some (js "owner@example.com") |}.

Definition no_env : Env :=
  {| EMAIL_USER := None; EMAIL_PASS := None; ADMIN_EMAIL := None |}.

Definition contact : Contact.ContactFormRequest :=
  {| Contact.name := Some (js "Ada");
     Contact.email := Some (js "ada@example.com");
     Contact.subject := Some (js "Prints");
     Contact.message := Some (js "Do you sell prints?") |}.

(** An empty name and a malformed email. *)
Definition contact_empty_name : Contact.ContactFormRequest :=
  {| Contact.name := Some [];
     Contact.email := Some (js "not-an-email");
     Contact.subject := Some (js "x");
     Contact.message := Some (js "y") |}.

Definition contact_bad_email : Contact.ContactFormRequest :=
  {| Contact.name := Some (js "Ada");
     Contact.email := Some (js "ada@example");
     Contact.subject := Some (js "Prints");
     Contact.message := Some (js "Do you sell prints?") |}.

Definition painting : CartItem :=
  {| title := js "Painting A"; price := 100; quantity := 1 |}.

(** The example of the specification: one painting, paid in naira. *)
Definition checkout_ngn : Checkout.CreateCheckoutSessionRequest :=
  {| Checkout.items := [painting];
     Checkout.customerEmail := js "buyer@example.com";
     Checkout.successUrl := js "https://shop.example/success";
     Checkout.cancelUrl := js "https://shop.example/cancel";
     Checkout.currency := js "NGN";
     Checkout.currencyMultiplier := 1 |}.

(** A currency code the gateway adapter does not know. *)
Definition checkout_jpy : Checkout.CreateCheckoutSessionRequest :=
  {| Checkout.items := [painting];
     Checkout.customerEmail := js "buyer@example.com";
     Checkout.successUrl := js "https://shop.example/success";
     Checkout.cancelUrl := js "https://shop.example/cancel";
     Checkout.currency := js "JPY";
     Checkout.currencyMultiplier := 100 |}.

Definition checkout_eur : Checkout.CreateCheckoutSessionRequest :=
  {| Checkout.items := [painting];
     Checkout.customerEmail := js "buyer@example.com";
     Checkout.successUrl := js "https://shop.example/success";
     Checkout.cancelUrl := js "https://shop.example/cancel";
     Checkout.currency := js "EUR";
     Checkout.currencyMultiplier := 100 |}.

(** A receipt whose total (1.00) is not the sum of its items (100.00). *)
Definition receipt : Receipt.SendReceiptRequest :=
  {| Receipt.customerEmail := js "buyer@example.com";
     Receipt.orderId := js "ORD-1";
     Receipt.items := [painting];
     Receipt.total := 1;
     Receipt.customerName := js "Bo";
     Receipt.shippingAddress := js "1 Main St, Lagos" |}.

Definition smtp_error : thrown :=
  ErrorObject (js "connect ETIMEDOUT 10.0.0.5:465").

Definition gateway_error : thrown :=
  ErrorObject (js "Invalid API Key provided: sk_live_1234").

End Sample.

(* ===================================================================== *)
(** * The rest of the server: origins, transporter, health *)
(* ===================================================================== *)

(** [p] occurs in [s] as a contiguous run of code units. *)
Definition substring (p s : jsstring) : Prop :=
  exists a b, s = a ++ p ++ b.

(** Reading a string of decimal digits back as a number; [None] for the empty
    string and for a string with any other code unit. *)
Fixpoint uint_of_codes (s : jsstring) : option Decimal.uint :=
  match s with
  | [] => Some Decimal.Nil
  | c :: s' =>
      match uint_of_codes s' with
      | None => None
      | Some d =>
          match c with
          | 48%N => Some (Decimal.D0 d)
          | 49%N => Some (Decimal.D1 d)
          | 50%N => Some (Decimal.D2 d)
          | 51%N => Some (Decimal.D3 d)
          | 52%N => Some (Decimal.D4 d)
          | 53%N => Some (Decimal.D5 d)
          | 54%N => Some (Decimal.D6 d)
          | 55%N => Some (Decimal.D7 d)
          | 56%N => Some (Decimal.D8 d)
          | 57%N => Some (Decimal.D9 d)
          | _ => None
          end
      end
  end.

Definition read_decimal (s : jsstring) : option N :=
  match s with
  | [] => None
  | _ :: _ => option_map N.of_uint (uint_of_codes s)
  end.

Module Cors.

(** [l.filter(Boolean)] on an array of strings and [undefined]s. *)
Definition filter_Boolean (l : list (option jsstring)) : list jsstring :=
  flat_map (fun o =>
              match o with
              | Some s => if truthy s then [s] else []
              | None => []
              end) l.

Section Origin.

(** [process.env.FRONTEND_URL] *)
Variable FRONTEND_URL : option jsstring.

Definition allowedOrigins : list jsstring :=
  filter_Boolean [Some (js "http://localhost:5173"); FRONTEND_URL].

(** What the [origin] function passes to its callback: [cb(null, true)] or
    [cb(new Error(...))]. *)
Inductive verdict : Type :=
| cb_null_true
| cb_error (error : thrown).

(** The [origin] option handed to [cors]; the request's Origin header is
    [undefined] when the request has none. *)
Definition origin_callback (origin : option jsstring) : verdict :=
  if negb (truthy_opt origin) then cb_null_true
  else if Array_includes allowedOrigins (interp origin) then cb_null_true
  else cb_error (ErrorObject (js "CORS blocked for origin: " ++ interp origin)).

End Origin.

End Cors.

Module Transporter.

(** The object [getTransporter] hands to [nodemailer.createTransport]. *)
Record config : Type := {
  host : jsstring;
  port : float;
  secure : bool;
  auth_user : option jsstring;
  auth_pass : option jsstring;
  tls_rejectUnauthorized : bool
}.

(** [v || d] for [v] a string or [undefined] and [d] a string. *)
Definition or_default (v : option jsstring) (d : jsstring) : jsstring :=
  match v with
  | Some s => if truthy s then s else d
  | None => d
  end.

(** [v === s] for [v] a string or [undefined]. *)
Definition strict_equal (v : option jsstring) (s : jsstring) : bool :=
  match v with
  | Some s' => jsstring_eqb s' s
  | None => false
  end.

Section GetTransporter.

(** The global [parseInt], applied to a string. *)
Variable parseInt : jsstring -> float.

(** [process.env.SMTP_HOST], [SMTP_PORT] and [SMTP_SECURE]. *)
Variables SMTP_HOST SMTP_PORT SMTP_SECURE : option jsstring.
Variable env : Env.

Definition getTransporter_config : config :=
  {| host := or_default SMTP_HOST (js "adisaolashile.com");
     port := parseInt (or_default SMTP_PORT (js "465"));
     secure := strict_equal SMTP_SECURE (js "true") || true;
     auth_user := EMAIL_USER env;
     auth_pass := EMAIL_PASS env;
     tls_rejectUnauthorized := false |}.

End GetTransporter.

End Transporter.

Module Health.

Local Open Scope js_scope.

(** [a && b] on values that are strings or [undefined]. *)
Definition and_then (a b : option jsstring) : option jsstring :=
  if truthy_opt a then b else a.

Section Handler.

(** [new Date().toISOString()] at the time of the request. *)
Variable Date_toISOString : jsstring.
Variable env : Env.

(** [!!(process.env.EMAIL_USER && process.env.EMAIL_PASS)] *)
Definition emailConfigured : bool :=
  negb (negb (truthy_opt (and_then (EMAIL_USER env) (EMAIL_PASS env)))).

Definition handler : exc unit :=
  respond (res_json
    (JObject [("status", JString (js "OK"));
              ("timestamp", JString Date_toISOString);
              ("emailConfigured", JBool emailConfigured)]%string)).

End Handler.

End Health.

(* ===================================================================== *)
(** * Facts about strings and runs *)
(* ===================================================================== *)

Arguments js : simpl never.

Lemma jsstring_eqb_eq (a b : jsstring) : jsstring_eqb a b = true <-> a = b.
Proof.
  revert b; induction a as [|x a IH]; intros [|y b]; simpl;
    try (split; [discriminate | congruence]); try tauto.
  rewrite andb_true_iff, N.eqb_eq, IH.
  split; [intros [-> ->]; reflexivity | intros [= -> ->]; auto].
Qed.

Lemma Array_includes_In (l : list jsstring) (s : jsstring) :
  Array_includes l s = true <-> In s l.
Proof.
  unfold Array_includes. rewrite existsb_exists. split.
  - intros (x & Hx & E). apply jsstring_eqb_eq in E. subst; assumption.
  - intros H. exists s. split; [assumption | apply jsstring_eqb_eq; reflexivity].
Qed.

Lemma truthy_opt_false (o : option jsstring) :
  truthy_opt o = false <-> o = None \/ o = Some [].
Proof.
  destruct o as [[|c s]|]; simpl; split; intros H; auto; try discriminate.
  destruct H as [H|H]; discriminate.
Qed.

(* ===================================================================== *)
(** * What the derivative matcher decides *)
(* ===================================================================== *)

Section RegExpFacts.

Import RegExp.

Lemma matches_nil_nullable r s : matches r s -> s = [] -> nullable r = true.
Proof.
  induction 1 as [ | p c Hp | r1 r2 s1 s2 _ IH1 _ IH2 | r1 r2 s _ IH
                 | r1 r2 s _ IH | r | r s1 s2 _ _ _ _ ]; intros E; simpl;
    try reflexivity; try discriminate.
  - apply app_eq_nil in E. destruct E as [E1 E2].
    rewrite (IH1 E1), (IH2 E2). reflexivity.
  - rewrite (IH E). reflexivity.
  - rewrite (IH E). apply orb_true_r.
Qed.

Lemma nullable_matches r : nullable r = true -> matches r [].
Proof.
  induction r as [ | | p | r1 IH1 r2 IH2 | r1 IH1 r2 IH2 | r IH ]; simpl;
    intros H; try discriminate.
  - constructor.
  - apply andb_true_iff in H. destruct H as [H1 H2].
    apply (m_cat r1 r2 [] []); auto.
  - apply orb_true_iff in H. destruct H as [H|H];
      [apply m_alt_l | apply m_alt_r]; auto.
  - constructor.
Qed.

Lemma matches_deriv r cs :
  matches r cs -> forall c s, cs = c :: s -> matches (deriv c r) s.
Proof.
  induction 1 as [ | p c0 Hp | r1 r2 s1 s2 H1 IH1 H2 IH2 | r1 r2 s0 _ IH
                 | r1 r2 s0 _ IH | r | r s1 s2 H1 IH1 H2 IH2 ];
    intros c s E; simpl.
  - discriminate.
  - injection E as -> <-. rewrite Hp. constructor.
  - destruct s1 as [|c1 s1'].
    + simpl in E. rewrite (matches_nil_nullable r1 [] H1 eq_refl).
      apply m_alt_r. apply IH2. exact E.
    + simpl in E. injection E as -> <-.
      assert (matches (Cat (deriv c r1) r2) (s1' ++ s2)) as M
        by (constructor; [apply IH1; reflexivity | exact H2]).
      destruct (nullable r1); [apply m_alt_l|]; exact M.
  - apply m_alt_l. apply IH. exact E.
  - apply m_alt_r. apply IH. exact E.
  - discriminate.
  - destruct s1 as [|c1 s1'].
    + simpl in E. apply IH2 in E. exact E.
    + simpl in E. injection E as -> <-.
      constructor; [apply IH1; reflexivity | exact H2].
Qed.

Lemma deriv_matches c r : forall s, matches (deriv c r) s -> matches r (c :: s).
Proof.
  induction r as [ | | p | r1 IH1 r2 IH2 | r1 IH1 r2 IH2 | r IH ]; simpl;
    intros s H.
  - inversion H.
  - inversion H.
  - destruct (p c) eqn:Hp; inversion H; subst. constructor. exact Hp.
  - assert (forall s, matches (Cat (deriv c r1) r2) s ->
                      matches (Cat r1 r2) (c :: s)) as L.
    { intros s' H'. inversion H' as [ | | ? ? s1 s2 M1 M2 | | | | ]; subst.
      apply (m_cat r1 r2 (c :: s1) s2); [apply IH1; exact M1 | exact M2]. }
    destruct (nullable r1) eqn:N; [|apply L; exact H].
    inversion H as [ | | | ? ? ? M | ? ? ? M | | ]; subst.
    + apply L. exact M.
    + apply (m_cat r1 r2 [] (c :: s));
        [apply nullable_matches; exact N | apply IH2; exact M].
  - inversion H as [ | | | ? ? ? M | ? ? ? M | | ]; subst;
      [apply m_alt_l; apply IH1 | apply m_alt_r; apply IH2]; exact M.
  - inversion H as [ | | ? ? s1 s2 M1 M2 | | | | ]; subst.
    apply (m_star_cons r (c :: s1) s2); [apply IH; exact M1 | exact M2].
Qed.

(** [test] decides membership in the language. *)
Lemma test_matches s : forall r, test r s = true <-> matches r s.
Proof.
  induction s as [|c s IH]; intros r; simpl.
  - split; [apply nullable_matches|].
    intros H. apply (matches_nil_nullable r [] H eq_refl).
  - rewrite IH. split; [apply deriv_matches|].
    intros H. apply (matches_deriv r (c :: s) H c s eq_refl).
Qed.

Lemma matches_star_class p s :
  matches (Star (Class p)) s <-> Forall (fun c => p c = true) s.
Proof.
  split.
  - intros H. remember (Star (Class p)) as r eqn:E.
    induction H as [ | | | | | r0 | r0 s1 s2 H1 _ H2 IH2 ]; try discriminate.
    + constructor.
    + injection E as ->. inversion H1; subst. simpl.
      constructor; [assumption | apply IH2; reflexivity].
  - induction 1 as [|c s Hc _ IH].
    + constructor.
    + apply (m_star_cons (Class p) [c] s); [constructor; exact Hc | exact IH].
Qed.

Lemma matches_plus_class p s :
  matches (Plus (Class p)) s <-> s <> [] /\ Forall (fun c => p c = true) s.
Proof.
  unfold Plus. split.
  - intros H. inversion H as [ | | ? ? s1 s2 M1 M2 | | | | ]; subst.
    inversion M1; subst. simpl. split; [discriminate|].
    constructor; [assumption | apply matches_star_class; exact M2].
  - intros [Hn Hs]. destruct Hs as [|c s Hc Hs]; [contradiction|].
    apply (m_cat (Class p) (Star (Class p)) [c] s);
      [constructor; exact Hc | apply matches_star_class; exact Hs].
Qed.

Lemma matches_char a s : matches (Class (N.eqb a)) s <-> s = [a].
Proof.
  split.
  - intros H. inversion H as [ | ? c Hc | | | | | ]; subst.
    apply N.eqb_eq in Hc. subst. reflexivity.
  - intros ->. constructor. apply N.eqb_refl.
Qed.

(** The email pattern accepts exactly the strings local@domain.tld. *)
Lemma emailRegex_test_iff (s : jsstring) :
  test Contact.emailRegex s = true <-> Contact.local_at_domain_tld s.
Proof.
  rewrite test_matches.
  unfold Contact.emailRegex, Contact.local_at_domain_tld. split.
  - intros H.
    inversion H as [ | | ? ? l s1 Ml M1 | | | | ]; subst.
    inversion M1 as [ | | ? ? a s2 Ma M2 | | | | ]; subst.
    inversion M2 as [ | | ? ? d s3 Md M3 | | | | ]; subst.
    inversion M3 as [ | | ? ? f t Mf Mt | | | | ]; subst.
    apply matches_plus_class in Ml, Md, Mt.
    apply matches_char in Ma, Mf. subst a f.
    destruct Ml as [Nl Fl], Md as [Nd Fd], Mt as [Nt Ft].
    exists l, d, t. repeat (split; [assumption|]). simpl. split; [reflexivity|].
    repeat (split; [assumption|]).
    apply Forall_app. split; [assumption|].
    apply Forall_app. split; assumption.
  - intros (l & d & t & -> & Nl & Nd & Nt & F).
    apply Forall_app in F. destruct F as [Fl F].
    apply Forall_app in F. destruct F as [Fd Ft].
    constructor; [apply matches_plus_class; split; assumption|].
    constructor; [apply matches_char; reflexivity|].
    constructor; [apply matches_plus_class; split; assumption|].
    constructor; [apply matches_char; reflexivity|].
    apply matches_plus_class; split; assumption.
Qed.

End RegExpFacts.

(* ===================================================================== *)
(** * Runs of the contact handler *)
(* ===================================================================== *)

Section ContactRuns.

Import Contact.

Variable markup : template -> nat -> jsstring.
Variable Date_toLocaleString : nat -> jsstring.
Variable env : Env.
Variable req : ContactFormRequest.
Variable w : world.

Local Abbreviation handler := (Contact.handler markup Date_toLocaleString env req).
Local Abbreviation admin := (adminMailOptions markup Date_toLocaleString env req).
Local Abbreviation user := (userMailOptions markup env req).
Local Abbreviation verify := (Call transporter_verify).
Local Abbreviation send m := (Call (transporter_sendMail m)).

Lemma contact_run_missing :
  missing req = true ->
  run w handler
  = ([], Responded (res_status_json 400 (failure "All fields are required"))).
Proof.
  unfold missing, Contact.handler. intros ->. reflexivity.
Qed.

Lemma contact_run_malformed :
  missing req = false -> malformed req = true ->
  run w handler
  = ([], Responded (res_status_json 400 (failure "Invalid email address"))).
Proof.
  unfold missing, malformed, Contact.handler. intros -> ->. reflexivity.
Qed.

Lemma contact_run_unconfigured :
  missing req = false -> malformed req = false -> unconfigured env = true ->
  run w handler
  = ([], Responded (res_status_json 500
                      (failure "Email service is not configured"))).
Proof.
  unfold missing, malformed, unconfigured, Contact.handler.
  intros -> -> ->. reflexivity.
Qed.

Lemma contact_run_verify_rejected reason :
  missing req = false -> malformed req = false -> unconfigured env = false ->
  w unit [] transporter_verify = Rejected reason ->
  run w handler
  = ([verify],
     Responded (res_status_json 500
       (failure "Email service temporarily unavailable. Please try again later."))).
Proof.
  unfold missing, malformed, unconfigured, Contact.handler, run.
  intros -> -> -> H. simpl. rewrite H. reflexivity.
Qed.

Lemma contact_run_admin_rejected u reason :
  missing req = false -> malformed req = false -> unconfigured env = false ->
  w unit [] transporter_verify = Fulfilled u ->
  w unit [verify] (transporter_sendMail admin) = Rejected reason ->
  run w handler
  = ([verify; send admin],
     Responded (res_status_json 500
       (failure (userErrorMessage (errorMessage reason))))).
Proof.
  unfold missing, malformed, unconfigured, Contact.handler, run.
  intros -> -> -> H1 H2. simpl. rewrite H1. simpl. rewrite H2. reflexivity.
Qed.

Lemma contact_run_user_rejected u u' reason :
  missing req = false -> malformed req = false -> unconfigured env = false ->
  w unit [] transporter_verify = Fulfilled u ->
  w unit [verify] (transporter_sendMail admin) = Fulfilled u' ->
  w unit [verify; send admin] (transporter_sendMail user) = Rejected reason ->
  run w handler
  = ([verify; send admin; send user],
     Responded (res_status_json 500
       (failure (userErrorMessage (errorMessage reason))))).
Proof.
  unfold missing, malformed, unconfigured, Contact.handler, run.
  intros -> -> -> H1 H2 H3. simpl. rewrite H1. simpl. rewrite H2. simpl.
  rewrite H3. reflexivity.
Qed.

Lemma contact_run_sent u u' u'' :
  missing req = false -> malformed req = false -> unconfigured env = false ->
  w unit [] transporter_verify = Fulfilled u ->
  w unit [verify] (transporter_sendMail admin) = Fulfilled u' ->
  w unit [verify; send admin] (transporter_sendMail user) = Fulfilled u'' ->
  run w handler
  = ([verify; send admin; send user],
     Responded (res_status_json 200
       (JObject
          [("success", JBool true);
           ("message", JString (js "Message sent successfully! You should receive a confirmation email shortly."))]%string))).
Proof.
  unfold missing, malformed, unconfigured, Contact.handler, run.
  intros -> -> -> H1 H2 H3. simpl. rewrite H1. simpl. rewrite H2. simpl.
  rewrite H3. reflexivity.
Qed.

End ContactRuns.

(* ===================================================================== *)
(** * Runs of the receipt handler *)
(* ===================================================================== *)

Section ReceiptRuns.

Import Receipt.

Variable markup : template -> nat -> jsstring.
Variable Number_toString : float -> jsstring.
Variable today now : jsstring.
Variable env : Env.
Variable req : SendReceiptRequest.
Variable w : world.

Local Abbreviation handler :=
  (Receipt.handler markup Number_toString today now env req).
Local Abbreviation customer :=
  (customerMailOptions markup Number_toString today env req).
Local Abbreviation admin :=
  (adminMailOptions markup Number_toString now env req).
Local Abbreviation send m := (Call (transporter_sendMail m)).

Lemma receipt_run_unconfigured :
  unconfigured env = true ->
  run w handler
  = ([], Responded (res_status_json 500
           (JObject [("error"%string,
                      JString (js "Email configuration is missing"))]))).
Proof.
  unfold unconfigured, Receipt.handler. intros ->. reflexivity.
Qed.

Lemma receipt_run_customer_rejected reason :
  unconfigured env = false ->
  w unit [] (transporter_sendMail customer) = Rejected reason ->
  run w handler
  = ([send customer],
     Responded (res_status_json 500
       (JObject [("error"%string, JString (errorMessage reason))]))).
Proof.
  unfold unconfigured, Receipt.handler, run. intros -> H.
  simpl. rewrite H. reflexivity.
Qed.

Lemma receipt_run_admin_rejected u reason :
  unconfigured env = false ->
  w unit [] (transporter_sendMail customer) = Fulfilled u ->
  w unit [send customer] (transporter_sendMail admin) = Rejected reason ->
  run w handler
  = ([send customer; send admin],
     Responded (res_status_json 500
       (JObject [("error"%string, JString (errorMessage reason))]))).
Proof.
  unfold unconfigured, Receipt.handler, run. intros -> H1 H2.
  simpl. rewrite H1. simpl. rewrite H2. reflexivity.
Qed.

Lemma receipt_run_sent u u' :
  unconfigured env = false ->
  w unit [] (transporter_sendMail customer) = Fulfilled u ->
  w unit [send customer] (transporter_sendMail admin) = Fulfilled u' ->
  run w handler
  = ([send customer; send admin],
     Responded (res_json
       (JObject [("success", JBool true);
                 ("message", JString (js "Receipts sent successfully"));
                 ("orderId", JString (orderId req))]%string))).
Proof.
  unfold unconfigured, Receipt.handler, run. intros -> H1 H2.
  simpl. rewrite H1. simpl. rewrite H2. reflexivity.
Qed.

End ReceiptRuns.

(* ===================================================================== *)
(** * Runs of the checkout and verification handlers *)
(* ===================================================================== *)

Section GatewayRuns.

Variable w : world.

Lemma checkout_run_created req session :
  w _ [] (sessions_create (Checkout.params req)) = Fulfilled session ->
  run w (Checkout.handler req)
  = ([Call (sessions_create (Checkout.params req))],
     Responded (res_json
       (JObject [("id", JString (Stripe.id session));
                 ("url", JOption (Stripe.url session))]%string))).
Proof.
  unfold Checkout.handler, run. intros H. simpl. rewrite H. reflexivity.
Qed.

Lemma checkout_run_rejected req reason :
  w _ [] (sessions_create (Checkout.params req)) = Rejected reason ->
  run w (Checkout.handler req)
  = ([Call (sessions_create (Checkout.params req))],
     Responded (res_status_json 500
       (JObject [("error"%string, JString (errorMessage reason))]))).
Proof.
  unfold Checkout.handler, run. intros H. simpl. rewrite H. reflexivity.
Qed.

Lemma checkout_calls req :
  calls w (Checkout.handler req)
  = [Call (sessions_create (Checkout.params req))].
Proof.
  unfold calls.
  destruct (w _ [] (sessions_create (Checkout.params req))) as [session|reason] eqn:E.
  - rewrite (checkout_run_created _ _ E). reflexivity.
  - rewrite (checkout_run_rejected _ _ E). reflexivity.
Qed.

Lemma checkout_forwarded req :
  Checkout.forwarded req w = Checkout.lineItems req.
Proof.
  unfold Checkout.forwarded. rewrite checkout_calls. simpl.
  apply app_nil_r.
Qed.

Lemma verify_run_not_a_string session_id :
  Verify.falsy session_id || negb (Verify.typeof_string session_id) = true ->
  run w (Verify.handler session_id)
  = ([], Responded (res_status_json 400
           (JObject [("error"%string,
                      JString (js "Session ID is required"))]))).
Proof.
  unfold Verify.handler. intros ->. reflexivity.
Qed.

Lemma verify_run_rejected s reason :
  truthy s = true ->
  w _ [] (sessions_retrieve s [js "payment_intent"]) = Rejected reason ->
  run w (Verify.handler (Verify.q_string s))
  = ([Call (sessions_retrieve s [js "payment_intent"])],
     Responded (res_status_json 500
       (JObject [("error"%string, JString (errorMessage reason))]))).
Proof.
  unfold Verify.handler, run. simpl. intros -> H. simpl. rewrite H.
  reflexivity.
Qed.

End GatewayRuns.

(* ===================================================================== *)
(** * Rounding *)
(* ===================================================================== *)

Section NumberFacts.

Import Number.
Local Open Scope Z_scope.

Lemma two_power_pos k : 0 <= k -> Z.pos (Z.to_pos (2 ^ k)) = 2 ^ k.
Proof.
  intros Hk. apply Z2Pos.id. apply Z.pow_pos_nonneg; lia.
Qed.

(** On a positive Number that has a fractional part, the integer [Math_round]
    selects is the one the specification's rounding selects. *)
Lemma round_scaled_half_away m e :
  e < 0 ->
  round_scaled 1 false m e = round_half_away_from_zero (value false m e).
Proof.
  intros He. unfold round_scaled, round_half_away_from_zero, value.
  replace (0 <=? e) with false by (symmetry; apply Z.leb_gt; exact He).
  unfold Qle_bool, Qfloor, Qplus. simpl Qnum. simpl Qden.
  rewrite Pos2Z.inj_mul, two_power_pos by lia.
  destruct (Z.leb_spec (0 * 2 ^ (- e)) (Z.pos m * 1)) as [_|L]; [|lia].
  rewrite Z.pow_add_r by lia.
  f_equal; lia.
Qed.

Lemma round_half_away_integer z :
  0 <= z -> round_half_away_from_zero (inject_Z z) = z.
Proof.
  intros Hz. unfold round_half_away_from_zero, Qle_bool, Qfloor, Qplus, inject_Z.
  simpl Qnum. simpl Qden.
  replace (0 * 1 <=? z * 1) with true by (symmetry; apply Z.leb_le; lia).
  change (Z.pos (1 * 2)) with 2.
  symmetry. apply Z.div_unique with (r := 1); lia.
Qed.

Lemma value_integral m e :
  integral m e = true ->
  exists z, 0 <= z /\ (value false m e == inject_Z z)%Q.
Proof.
  unfold integral, value. intros H.
  destruct (0 <=? e) eqn:He.
  - exists (Z.pos m * 2 ^ e). split; [|reflexivity].
    apply Z.leb_le in He. apply Z.mul_nonneg_nonneg; [lia|].
    apply Z.pow_nonneg; lia.
  - simpl in H. apply Z.eqb_eq in H. apply Z.leb_gt in He.
    exists (Z.pos m / 2 ^ (- e)). split.
    + apply Z.div_pos; [lia | apply Z.pow_pos_nonneg; lia].
    + unfold Qeq, inject_Z. simpl Qnum. simpl Qden.
      rewrite two_power_pos by lia.
      pose proof (Z.div_mod (Z.pos m) (2 ^ (- e))) as D.
      assert (2 ^ (- e) <> 0) as N by (apply Z.pow_nonzero; lia).
      specialize (D N). lia.
Qed.

Lemma of_Z_0 : of_Z 0 = zero.
Proof. reflexivity. Qed.

End NumberFacts.

Section Binary64.

Local Open Scope Z_scope.

Lemma digits2_pos_bounds p :
  2 ^ (Z.pos (digits2_pos p) - 1) <= Z.pos p < 2 ^ Z.pos (digits2_pos p).
Proof.
  induction p as [p IH|p IH|]; simpl digits2_pos.
  - rewrite Pos2Z.inj_succ.
    replace (Z.succ (Z.pos (digits2_pos p)) - 1) with (Z.succ (Z.pos (digits2_pos p) - 1)) by lia.
    rewrite !Z.pow_succ_r by lia. lia.
  - rewrite Pos2Z.inj_succ.
    replace (Z.succ (Z.pos (digits2_pos p)) - 1) with (Z.succ (Z.pos (digits2_pos p) - 1)) by lia.
    rewrite !Z.pow_succ_r by lia. lia.
  - simpl. lia.
Qed.

Lemma iter_xO_value p n : Z.pos (Pos.iter xO p n) = Z.pos p * 2 ^ Z.pos n.
Proof.
  induction n as [|n IH] using Pos.peano_ind.
  - simpl. lia.
  - rewrite Pos.iter_succ, Pos2Z.inj_succ, Z.pow_succ_r by lia.
    rewrite Pos2Z.inj_xO, IH. lia.
Qed.

Lemma iter_xO_digits p n :
  digits2_pos (Pos.iter xO p n) = (digits2_pos p + n)%positive.
Proof.
  induction n as [|n IH] using Pos.peano_ind.
  - simpl. lia.
  - rewrite Pos.iter_succ. simpl. rewrite IH. lia.
Qed.

Lemma binary_round_aux_canonical mz ez :
  Z.pos (digits2_pos mz) = 53 -> -52 <= ez <= 0 ->
  binary_round_aux prec emax false (Z.pos mz) ez loc_Exact
  = S754_finite false mz ez.
Proof.
  intros Hd He.
  assert (fexp prec emax (Z.pos (digits2_pos mz) + ez) - ez = 0) as Hf.
  { rewrite Hd. unfold fexp, emin, prec, emax. lia. }
  unfold binary_round_aux, shr_fexp.
  cbn [Zdigits2 shr_record_of_loc]. rewrite Hf.
  cbn [shr shr_m loc_of_shr_record round_nearest_even Zdigits2
       shr_record_of_loc].
  rewrite Hf. cbn [shr shr_m].
  replace (ez <=? emax - prec) with true; [reflexivity|].
  symmetry. apply Z.leb_le. unfold emax, prec. lia.
Qed.

Lemma binary_normalize_small p :
  Z.pos p < 2 ^ 53 ->
  exists mz ez,
    binary_normalize prec emax (Z.pos p) 0 false = S754_finite false mz ez
    /\ valid_binary (S754_finite false mz ez) = true
    /\ ez <= 0 /\ Z.pos mz = Z.pos p * 2 ^ (- ez).
Proof.
  intros Hp.
  pose proof (digits2_pos_bounds p) as [Hlo _].
  assert (Z.pos (digits2_pos p) <= 53) as Hd.
  { destruct (Z_le_gt_dec (Z.pos (digits2_pos p)) 53) as [L|G]; [exact L|].
    exfalso. assert (2 ^ 53 <= 2 ^ (Z.pos (digits2_pos p) - 1))
      by (apply Z.pow_le_mono_r; lia). lia. }
  assert (forall mz ez,
            Z.pos (digits2_pos mz) = 53 -> -52 <= ez <= 0 ->
            valid_binary (S754_finite false mz ez) = true) as Valid.
  { intros mz ez Hm He. unfold SpecFloat.valid_binary, bounded, canonical_mantissa.
    rewrite Hm. apply andb_true_iff. split.
    - apply Z.eqb_eq. unfold fexp, emin, prec, emax. lia.
    - apply Z.leb_le. unfold prec, emax. lia. }
  unfold binary_normalize, binary_round.
  assert (fexp prec emax (Z.pos (digits2_pos p) + 0)
          = Z.pos (digits2_pos p) - 53) as Hf.
  { unfold fexp, emin, prec, emax. lia. }
  rewrite Hf. unfold shl_align.
  destruct (Z.pos (digits2_pos p) - 53 - 0) as [|k|k] eqn:E; [| lia |].
  - assert (Z.pos (digits2_pos p) = 53) as D by lia.
    exists p, 0. rewrite binary_round_aux_canonical by (lia || exact D).
    split; [reflexivity|]. split; [apply Valid; lia|]. simpl. lia.
  - assert (Z.pos (digits2_pos (Pos.iter xO p k)) = 53) as D
      by (rewrite iter_xO_digits; lia).
    exists (Pos.iter xO p k), (Z.pos (digits2_pos p) - 53).
    rewrite binary_round_aux_canonical by (lia || exact D).
    split; [reflexivity|]. split; [apply Valid; lia|]. split; [lia|].
    rewrite iter_xO_value. f_equal. f_equal. lia.
Qed.

(** The Number made from a positive integer below 2^53 has that integer as
    its exact value. *)
Lemma of_Z_exact z :
  0 < z < 2 ^ 53 ->
  exists m e,
    Prim2SF (Number.of_Z z) = S754_finite false m e
    /\ (Number.value false m e == inject_Z z)%Q.
Proof.
  intros [Hz Hb]. destruct z as [|p|p]; try lia.
  destruct (binary_normalize_small p Hb) as (mz & ez & N & V & E & M).
  exists mz, ez. unfold Number.of_Z. rewrite N.
  split; [apply Prim2SF_SF2Prim; exact V|].
  unfold Number.value. destruct (0 <=? ez) eqn:L.
  - apply Z.leb_le in L. assert (ez = 0) as -> by lia.
    change (- 0) with 0 in M. change (2 ^ 0) with 1 in M |- *.
    unfold Qeq, inject_Z. simpl Qnum. simpl Qden. lia.
  - unfold Qeq, inject_Z. simpl Qnum. simpl Qden.
    apply Z.leb_gt in L. rewrite two_power_pos by lia. lia.
Qed.

(** A mantissa of a Number is below 2^53. *)
Lemma mantissa_bound x s m e :
  Prim2SF x = S754_finite s m e -> Z.pos m < 2 ^ 53.
Proof.
  intros Hx. pose proof (Prim2SF_valid x) as V. rewrite Hx in V.
  unfold SpecFloat.valid_binary, bounded, canonical_mantissa in V.
  apply andb_true_iff in V. destruct V as [V _]. apply Z.eqb_eq in V.
  unfold fexp, emin, prec, emax in V.
  pose proof (digits2_pos_bounds m) as [_ Hhi].
  assert (2 ^ Z.pos (digits2_pos m) <= 2 ^ 53)
    by (apply Z.pow_le_mono_r; lia).
  lia.
Qed.

Lemma round_scaled_bounds m e :
  e < 0 -> 0 <= Number.round_scaled 1 false m e <= Z.pos m.
Proof.
  intros He. unfold Number.round_scaled.
  replace (0 <=? e) with false by (symmetry; apply Z.leb_gt; exact He).
  assert (2 <= 2 ^ (- e)) as P.
  { change 2 with (2 ^ 1) at 1. apply Z.pow_le_mono_r; lia. }
  rewrite Z.pow_add_r by lia. change (2 ^ 1) with 2.
  split.
  - apply Z.div_pos; lia.
  - apply Z.lt_succ_r. apply Z.div_lt_upper_bound; nia.
Qed.

End Binary64.

(** [Math.round] on a positive finite Number: an integral Number is returned
    as it is, and is its own rounding; any other is replaced by the Number of
    the integer that rounding halves away from zero selects. *)
Lemma Math_round_positive x m e :
  Prim2SF x = S754_finite false m e ->
  (Number.integral m e = true ->
   Number.Math_round x = x
   /\ (inject_Z (Number.round_half_away_from_zero (Number.value false m e))
       == Number.value false m e)%Q)
  /\ (Number.integral m e = false ->
      Number.Math_round x
      = Number.of_Z
          (Number.round_half_away_from_zero (Number.value false m e))).
Proof.
  intros Hx. unfold Number.Math_round. rewrite Hx. split; intros Hi; rewrite Hi.
  - split; [reflexivity|].
    destruct (value_integral m e Hi) as (z & Hz & E).
    rewrite E at 2.
    assert (Number.round_half_away_from_zero (Number.value false m e) = z)
      as ->; [|reflexivity].
    rewrite <- (round_half_away_integer z Hz).
    unfold Number.round_half_away_from_zero.
    rewrite (Qleb_comp _ _ (Qeq_refl 0) _ _ E).
    destruct (Qle_bool 0 (inject_Z z)).
    + apply Qfloor_comp. rewrite E. reflexivity.
    + f_equal. apply Qfloor_comp. rewrite E. reflexivity.
  - assert (e < 0)%Z as He.
    { unfold Number.integral in Hi. apply orb_false_iff in Hi.
      destruct Hi as [Hi _]. apply Z.leb_gt in Hi. exact Hi. }
    rewrite <- (round_scaled_half_away m e He).
    destruct (Number.round_scaled 1 false m e =? 0)%Z eqn:Z0; [|reflexivity].
    apply Z.eqb_eq in Z0. rewrite Z0. reflexivity.
Qed.

(** For a Number that is not negative, [Math.round] returns the Number
    whose exact value is the integer that rounding halves away from zero
    selects. *)
Lemma Math_round_exact x q :
  Number.exact x = Some q -> (0 <= q)%Q ->
  exists q',
    Number.exact (Number.Math_round x) = Some q'
    /\ (q' == inject_Z (Number.round_half_away_from_zero q))%Q.
Proof.
  unfold Number.exact. destruct (Prim2SF x) as [s|s| |s m e] eqn:Hx;
    try discriminate; intros [= <-] Hq.
  - exists 0%Q. unfold Number.Math_round. rewrite Hx, Hx.
    split; reflexivity.
  - destruct s.
    { exfalso. unfold Number.value in Hq.
      destruct (0 <=? e)%Z eqn:L.
      - apply Z.leb_le in L. unfold Qle, inject_Z in Hq.
        cbn [Qnum Qden] in Hq.
        assert (0 < 2 ^ e)%Z by (apply Z.pow_pos_nonneg; lia).
        pose proof (Pos2Z.neg_is_neg m). nia.
      - unfold Qle in Hq. cbn [Qnum Qden] in Hq.
        pose proof (Pos2Z.neg_is_neg m). lia. }
    destruct (Math_round_positive x m e Hx) as [Hi Hn].
    destruct (Number.integral m e) eqn:I.
    + destruct (Hi eq_refl) as [-> E]. rewrite Hx.
      eexists. split; [reflexivity|]. symmetry. exact E.
    + rewrite (Hn eq_refl).
      assert (e < 0)%Z as He.
      { unfold Number.integral in I. apply orb_false_iff in I.
        destruct I as [I _]. apply Z.leb_gt in I. exact I. }
      rewrite <- (round_scaled_half_away m e He).
      pose proof (round_scaled_bounds m e He) as B.
      pose proof (mantissa_bound x false m e Hx) as Mb.
      destruct (Z.eq_dec (Number.round_scaled 1 false m e) 0) as [Z0|Nz].
      * rewrite Z0. exists 0%Q. split; reflexivity.
      * destruct (of_Z_exact (Number.round_scaled 1 false m e))
          as (m' & e' & P & V); [lia|].
        rewrite P. eexists. split; [reflexivity | exact V].
Qed.

(** The product that is rounded is the Number product, itself rounded to
    binary64: the Numbers nearest to 0.615 and to 100 have an exact product
    just below 61.5, their Number product is 61.5, and the amount is 62. *)
Remark Number_product_is_rounded_first :
  (0.615 * 100)%float = 61.5%float
  /\ Number.Math_round (0.615 * 100)%float = 62%float
  /\ Number.exact 0.615%float = Some (5539427541665710 # 2 ^ 53)%Q
  /\ Number.exact 100%float = Some (7036874417766400 # 2 ^ 46)%Q
  /\ Number.round_half_away_from_zero
       ((5539427541665710 # 2 ^ 53) * (7036874417766400 # 2 ^ 46))%Q = 61%Z.
Proof.
  repeat split; vm_compute; reflexivity.
Qed.

Example Math_round_examples :
  map Number.Math_round
    [2.5; 2.4; 0.5; 0.49999999999999994; 790.0000000000001; 1e300;
     -2.5; -0.2; infinity]%float
  = [3; 2; 1; 0; 790; 1e300; -2; -0; infinity]%float.
Proof. reflexivity. Qed.

Example toFixed_examples :
  map (fun x => Number.toFixed Sample.Number_toString x 2)
    [100; 7.9; 1.005; 0.125; 39.98; -1.5; -0.001; 0; nan]%float
  = map js ["100.00"; "7.90"; "1.00"; "0.13"; "39.98"; "-1.50"; "-0.00";
            "0.00"; "NaN"]%string.
Proof. reflexivity. Qed.

Example emailRegex_examples :
  map (RegExp.test Contact.emailRegex)
    [js "ada@example.com"; js "a@b.c.d"; js "ada@example"; js "ada@.com";
     js "a b@example.com"; js "a@b@example.com"; js "@example.com";
     js "undefined"; []]
  = [true; true; false; false; false; false; false; false; false].
Proof. reflexivity. Qed.

(* ===================================================================== *)
(** * The checkout line items *)
(* ===================================================================== *)

Section LineItems.

Import Checkout.

Variable req : CreateCheckoutSessionRequest.

Lemma lineItems_length :
  List.length (lineItems req) = List.length (items req) + 1.
Proof.
  unfold lineItems. rewrite length_app, length_map. reflexivity.
Qed.

Lemma lineItems_item i item :
  nth_error (items req) i = Some item ->
  nth_error (lineItems req) i = Some (lineItem req item).
Proof.
  intros H. unfold lineItems.
  rewrite nth_error_app1.
  - apply map_nth_error. exact H.
  - rewrite length_map. apply nth_error_Some. congruence.
Qed.

Lemma lineItems_shipping :
  nth_error (lineItems req) (List.length (items req))
  = Some (shippingItem req).
Proof.
  unfold lineItems. rewrite nth_error_app2; rewrite length_map; [|lia].
  rewrite Nat.sub_diag. reflexivity.
Qed.

Lemma lineItems_currency :
  Forall (fun li => Stripe.currency (Stripe.price_data li) = stripeCurrency req)
    (lineItems req).
Proof.
  unfold lineItems. apply Forall_app. split.
  - apply Forall_map. apply Forall_forall. reflexivity.
  - constructor; [reflexivity | constructor].
Qed.

Lemma stripeCurrency_supported :
  In (stripeCurrency req) supportedCurrencies.
Proof.
  unfold stripeCurrency.
  destruct (Array_includes supportedCurrencies (currency req)) eqn:E.
  - apply Array_includes_In. exact E.
  - left. reflexivity.
Qed.

End LineItems.

(* ===================================================================== *)
(** * The claims about checkout *)
(* ===================================================================== *)

Section CheckoutClaims.

Import Checkout.

(** C1. A request whose currency is none of USD, GBP, EUR, CAD, AUD, NGN
    (as exact strings) is not turned away: the handler makes its one call
    to the gateway, every line item of that call (there is at least one) is
    priced in USD, and the response is the 200 success body whenever the
    gateway fulfils the call; it is the 500 body only when the gateway
    rejects it. *)
Theorem C1_unsupported_currency_is_charged_in_USD
  (req : CreateCheckoutSessionRequest) (w : world) :
  ~ In (currency req)
      [js "USD"; js "GBP"; js "EUR"; js "CAD"; js "AUD"; js "NGN"] ->
  calls w (handler req) = [Call (sessions_create (params req))]
  /\ forwarded req w <> []
  /\ Forall (fun li => Stripe.currency (Stripe.price_data li) = js "USD")
       (forwarded req w)
  /\ (forall session,
        w _ [] (sessions_create (params req)) = Fulfilled session ->
        result w (handler req)
        = Responded (res_json
            (JObject [("id", JString (Stripe.id session));
                      ("url", JOption (Stripe.url session))]%string)))
  /\ (forall r, result w (handler req) = Responded r -> status r <> 200 ->
        exists reason,
          w _ [] (sessions_create (params req)) = Rejected reason).
Proof.
  intros Hc.
  assert (stripeCurrency req = js "USD") as Husd.
  { unfold stripeCurrency.
    destruct (Array_includes supportedCurrencies (currency req)) eqn:E;
      [|reflexivity].
    apply Array_includes_In in E. contradiction. }
  split; [apply checkout_calls|].
  rewrite checkout_forwarded.
  split.
  { unfold lineItems. intros H. apply app_eq_nil in H.
    destruct H as [_ H]. discriminate. }
  split.
  { rewrite <- Husd. apply lineItems_currency. }
  split.
  - intros session H. unfold result.
    rewrite (checkout_run_created w req session H). reflexivity.
  - intros r Hr Hs.
    destruct (w _ [] (sessions_create (params req))) as [session|reason] eqn:E.
    + unfold result in Hr. rewrite (checkout_run_created w req session E) in Hr.
      simpl in Hr. injection Hr as <-. simpl in Hs. congruence.
    + exists reason. reflexivity.
Qed.

(** C2. The line items forwarded to the gateway are one more than the cart
    items; the extra, last one is the shipping line, of quantity 1; and the
    line item at each cart position carries that item's title and
    quantity. *)
Theorem C2_one_line_per_item_plus_shipping
  (req : CreateCheckoutSessionRequest) (w : world) :
  List.length (forwarded req w) = List.length (items req) + 1
  /\ (exists li,
        nth_error (forwarded req w) (List.length (items req)) = Some li
        /\ Stripe.name (Stripe.product_data (Stripe.price_data li))
           = js "Shipping"
        /\ Stripe.quantity li = 1%float)
  /\ (forall i item,
        nth_error (items req) i = Some item ->
        exists li,
          nth_error (forwarded req w) i = Some li
          /\ Stripe.name (Stripe.product_data (Stripe.price_data li))
             = title item
          /\ Stripe.quantity li = quantity item).
Proof.
  rewrite checkout_forwarded. split; [apply lineItems_length|]. split.
  - exists (shippingItem req). split; [apply lineItems_shipping|].
    split; reflexivity.
  - intros i item H. exists (lineItem req item).
    split; [apply lineItems_item; exact H|]. split; reflexivity.
Qed.

(** C3. Each cart item's amount is [Math.round] of the product of its price
    and the multiplier, and the shipping amount is [Math.round] of the
    product of the shipping rate and the multiplier, the products being
    those of Numbers, as the source computes them. On every Number that is
    not negative, [Math.round] returns the Number whose exact value is the
    one that rounding halves away from zero selects. For the one painting
    at 100 paid in NGN with multiplier 1 the amounts are 100 and 15000. *)
Theorem C3_amounts_are_rounded_products
  (req : CreateCheckoutSessionRequest) (w : world) :
  (forall i item,
     nth_error (items req) i = Some item ->
     exists li,
       nth_error (forwarded req w) i = Some li
       /\ Stripe.unit_amount (Stripe.price_data li)
          = Number.Math_round (price item * currencyMultiplier req)%float)
  /\ (exists li,
        nth_error (forwarded req w) (List.length (items req)) = Some li
        /\ Stripe.unit_amount (Stripe.price_data li)
           = Number.Math_round
               (shippingAmount req * currencyMultiplier req)%float)
  /\ (forall x q,
        Number.exact x = Some q -> (0 <= q)%Q ->
        exists q',
          Number.exact (Number.Math_round x) = Some q'
          /\ (q' == inject_Z (Number.round_half_away_from_zero q))%Q)
  /\ map (fun li => Stripe.unit_amount (Stripe.price_data li))
       (forwarded Sample.checkout_ngn w)
     = [100%float; 15000%float].
Proof.
  rewrite !checkout_forwarded. split; [|split; [|split]].
  - intros i item H. exists (lineItem req item).
    split; [apply lineItems_item; exact H | reflexivity].
  - exists (shippingItem req). split; [apply lineItems_shipping | reflexivity].
  - apply Math_round_exact.
  - vm_compute. reflexivity.
Qed.

(** C4. The effective currency is one of the six supported codes, and the
    shipping rate is read off it: 10 for USD, 7.9 for GBP, 15000 for NGN,
    and 10 for every effective currency outside that table, EUR, CAD and AUD
    among them; it is this rate that is multiplied and rounded into the
    shipping line. *)
Theorem C4_shipping_rate_by_effective_currency
  (req : CreateCheckoutSessionRequest) :
  In (stripeCurrency req) supportedCurrencies
  /\ (stripeCurrency req = js "USD" -> shippingAmount req = 10%float)
  /\ (stripeCurrency req = js "GBP" -> shippingAmount req = 7.9%float)
  /\ (stripeCurrency req = js "NGN" -> shippingAmount req = 15000%float)
  /\ (~ In (stripeCurrency req) [js "USD"; js "GBP"; js "NGN"] ->
      shippingAmount req = 10%float)
  /\ (In (stripeCurrency req) [js "EUR"; js "CAD"; js "AUD"] ->
      shippingAmount req = 10%float)
  /\ (~ In (currency req) supportedCurrencies ->
      shippingAmount req = 10%float)
  /\ Stripe.unit_amount (Stripe.price_data (shippingItem req))
     = Number.Math_round (shippingAmount req * currencyMultiplier req)%float.
Proof.
  unfold shippingAmount.
  assert (forall c, ~ In c [js "USD"; js "GBP"; js "NGN"] ->
                    number_or (property shippingRates c) 10 = 10%float) as Out.
  { intros c Hc.
    assert (forall k, In k [js "USD"; js "GBP"; js "NGN"] ->
                      jsstring_eqb k c = false) as Ne.
    { intros k Hk. destruct (jsstring_eqb k c) eqn:E; [|reflexivity].
      apply jsstring_eqb_eq in E. subst k. contradiction. }
    unfold shippingRates. cbn [property].
    rewrite !Ne by (simpl; auto). reflexivity. }
  split; [apply stripeCurrency_supported|].
  split; [intros ->; reflexivity|].
  split; [intros ->; reflexivity|].
  split; [intros ->; reflexivity|].
  split; [apply Out|].
  split; [|split; [|reflexivity]].
  - intros H. apply Out. intros H'. simpl in H, H'.
    destruct H as [H|[H|[H|[]]]]; rewrite <- H in H';
      destruct H' as [H'|[H'|[H'|[]]]]; discriminate H'.
  - intros H. unfold stripeCurrency.
    destruct (Array_includes supportedCurrencies (currency req)) eqn:E;
      [apply Array_includes_In in E; contradiction | reflexivity].
Qed.

End CheckoutClaims.

Lemma C1_witness :
  calls Sample.all_fulfilled (Checkout.handler Sample.checkout_jpy)
  = [Call (sessions_create (Checkout.params Sample.checkout_jpy))]
  /\ Checkout.forwarded Sample.checkout_jpy Sample.all_fulfilled <> []
  /\ Forall (fun li => Stripe.currency (Stripe.price_data li) = js "USD")
       (Checkout.forwarded Sample.checkout_jpy Sample.all_fulfilled)
  /\ result Sample.all_fulfilled (Checkout.handler Sample.checkout_jpy)
     = Responded (res_json
         (JObject [("id", JString (Stripe.id Sample.session));
                   ("url", JOption (Stripe.url Sample.session))]%string)).
Proof.
  destruct (C1_unsupported_currency_is_charged_in_USD
              Sample.checkout_jpy Sample.all_fulfilled) as (H1 & H2 & H3 & H4 & _).
  - simpl. intros [H|[H|[H|[H|[H|[H|[]]]]]]]; vm_compute in H; discriminate H.
  - split; [exact H1 | split; [exact H2 | split; [exact H3|]]].
    apply H4. reflexivity.
Defined.

Lemma C2_witness :
  exists li,
    nth_error (Checkout.forwarded Sample.checkout_ngn Sample.all_fulfilled) 0
    = Some li
    /\ Stripe.name (Stripe.product_data (Stripe.price_data li))
       = js "Painting A"
    /\ Stripe.quantity li = 1%float.
Proof.
  destruct (C2_one_line_per_item_plus_shipping
              Sample.checkout_ngn Sample.all_fulfilled) as (_ & _ & H).
  apply (H 0%nat Sample.painting). reflexivity.
Defined.

Lemma C3_witness :
  (exists li,
     nth_error (Checkout.forwarded Sample.checkout_jpy Sample.all_fulfilled) 0
     = Some li
     /\ Stripe.unit_amount (Stripe.price_data li)
        = Number.Math_round (100 * 100)%float)
  /\ (exists q',
        Number.exact (Number.Math_round 2.5%float) = Some q'
        /\ (q' == inject_Z (Number.round_half_away_from_zero (5 # 2)))%Q).
Proof.
  destruct (C3_amounts_are_rounded_products
              Sample.checkout_jpy Sample.all_fulfilled) as (H1 & _ & H2 & _).
  split.
  - apply (H1 0%nat Sample.painting). reflexivity.
  - destruct (H2 2.5%float (Number.value false 5629499534213120 (-51)))
      as (q' & E & R).
    + reflexivity.
    + unfold Qle. simpl. lia.
    + exists q'. split; [exact E | exact R].
Defined.

Lemma C4_witness :
  Checkout.shippingAmount Sample.checkout_eur = 10%float
  /\ Checkout.shippingAmount Sample.checkout_ngn = 15000%float
  /\ Checkout.shippingAmount Sample.checkout_jpy = 10%float.
Proof.
  split; [|split].
  - destruct (C4_shipping_rate_by_effective_currency Sample.checkout_eur)
      as (_ & _ & _ & _ & _ & H & _).
    apply H. simpl. left. reflexivity.
  - destruct (C4_shipping_rate_by_effective_currency Sample.checkout_ngn)
      as (_ & _ & _ & H & _).
    apply H. reflexivity.
  - destruct (C4_shipping_rate_by_effective_currency Sample.checkout_jpy)
      as (_ & _ & _ & _ & _ & _ & H & _).
    apply H. simpl.
    intros [H'|[H'|[H'|[H'|[H'|[H'|[]]]]]]]; vm_compute in H'; discriminate H'.
Defined.

(* ===================================================================== *)
(** * The claims about the contact form *)
(* ===================================================================== *)

Lemma missing_iff (req : Contact.ContactFormRequest) :
  Contact.missing req = true
  <-> exists f,
        In f [Contact.name req; Contact.email req; Contact.subject req;
              Contact.message req]
        /\ (f = None \/ f = Some []).
Proof.
  unfold Contact.missing. rewrite !orb_true_iff, !negb_true_iff.
  rewrite !truthy_opt_false. split.
  - intros [[[H|H]|H]|H]; eexists; (split; [|exact H]); simpl; auto.
  - intros (f & [<-|[<-|[<-|[<-|[]]]]] & H); auto.
Qed.

Lemma userErrorMessage_public (errorMessage : jsstring) :
  In (Contact.userErrorMessage errorMessage) (tl Contact.public_messages).
Proof.
  unfold Contact.userErrorMessage, Contact.public_messages.
  destruct (_ || _); [simpl; auto|].
  destruct (String_includes _ (js "EAUTH")); [simpl; auto|].
  destruct (String_includes _ (js "ECONNREFUSED")); simpl; auto.
Qed.

Section ContactClaims.

Import Contact.

Variable markup : template -> nat -> jsstring.
Variable Date_toLocaleString : nat -> jsstring.

Local Abbreviation handler := (Contact.handler markup Date_toLocaleString).
Local Abbreviation admin := (adminMailOptions markup Date_toLocaleString).
Local Abbreviation user := (userMailOptions markup).
Local Abbreviation verify := (Call transporter_verify).
Local Abbreviation send m := (Call (transporter_sendMail m)).

(** C5. A contact request that lacks one of its four fields (absent, or the
    empty string) is answered 400, All fields are required; one whose email
    does not match the pattern is answered 400 with that message or with
    Invalid email address; a verification request whose session_id is not a
    string is answered 400, Session ID is required. In each case the
    handler has made no call at all to the relay or to the gateway. *)
Theorem C5_validation_failures_answered_400_before_any_call :
  (forall env req (w : world) f,
     In f [name req; email req; subject req; message req] ->
     f = None \/ f = Some [] ->
     run w (handler env req)
     = ([], Responded (res_status_json 400
                         (failure "All fields are required"))))
  /\ (forall env req (w : world),
        ~ local_at_domain_tld (interp (email req)) ->
        run w (handler env req)
        = ([], Responded (res_status_json 400
                 (failure (if missing req then "All fields are required"
                           else "Invalid email address")))))
  /\ (forall session_id (w : world),
        (forall s, session_id <> Verify.q_string s) ->
        run w (Verify.handler session_id)
        = ([], Responded (res_status_json 400
                 (JObject [("error"%string,
                            JString (js "Session ID is required"))])))).
Proof.
  split; [|split].
  - intros env req w f Hin Hf. apply contact_run_missing.
    apply missing_iff. exists f. split; assumption.
  - intros env req w Ht. destruct (missing req) eqn:Hm.
    + apply contact_run_missing. exact Hm.
    + apply contact_run_malformed; [exact Hm|].
      unfold malformed.
      destruct (RegExp.test emailRegex (interp (email req))) eqn:T;
        [|reflexivity].
      apply emailRegex_test_iff in T. contradiction.
  - intros session_id w Hs. apply verify_run_not_a_string.
    destruct session_id as [|s| |]; try reflexivity.
    exfalso. apply (Hs s). reflexivity.
Qed.

(** C6. For a request with its four fields present and a well-formed email,
    with the mail credentials configured, and with the relay accepting the
    verification and both sends, the handler answers 200 with success true
    and hands exactly two mails to the relay: first the notification to the
    site owner, then the acknowledgment to the sender. *)
Theorem C6_valid_contact_sends_admin_then_user
  (env : Env) (req : ContactFormRequest) (w : world) :
  truthy_opt (name req) = true ->
  truthy_opt (email req) = true ->
  truthy_opt (subject req) = true ->
  truthy_opt (message req) = true ->
  RegExp.test emailRegex (interp (email req)) = true ->
  truthy_opt (EMAIL_USER env) = true ->
  truthy_opt (EMAIL_PASS env) = true ->
  w unit [] transporter_verify = Fulfilled tt ->
  w unit [verify] (transporter_sendMail (admin env req)) = Fulfilled tt ->
  w unit [verify; send (admin env req)]
    (transporter_sendMail (user env req)) = Fulfilled tt ->
  result w (handler env req)
  = Responded (res_status_json 200
      (JObject
         [("success", JBool true);
          ("message", JString (js "Message sent successfully! You should receive a confirmation email shortly."))]%string))
  /\ mails (calls w (handler env req)) = [admin env req; user env req]
  /\ map Mail.to (mails (calls w (handler env req)))
     = [or_else (ADMIN_EMAIL env) (EMAIL_USER env); email req].
Proof.
  intros Hn He Hs Hm Ht Hu Hp H1 H2 H3.
  assert (missing req = false) as M
    by (unfold missing; rewrite Hn, He, Hs, Hm; reflexivity).
  assert (malformed req = false) as F
    by (unfold malformed; rewrite Ht; reflexivity).
  assert (unconfigured env = false) as U
    by (unfold unconfigured; rewrite Hu, Hp; reflexivity).
  unfold result, calls.
  rewrite (contact_run_sent markup Date_toLocaleString env req w tt tt tt
             M F U H1 H2 H3).
  repeat split.
Qed.

(** C10. The handler tests, in this order, that no field is missing, that
    the email matches the pattern, that the mail credentials are configured
    and that the relay can be reached, and the first test to fail decides
    the response. A field is missing when it is absent or the empty string,
    so an empty name with a malformed email is answered All fields are
    required; and the answer Email service is not configured is given only
    to requests that pass both tests on the request. *)
Theorem C10_contact_checks_run_in_order
  (env : Env) (req : ContactFormRequest) (w : world) :
  (missing req = true
   <-> exists f, In f [name req; email req; subject req; message req]
                 /\ (f = None \/ f = Some []))
  /\ (missing req = true ->
      result w (handler env req)
      = Responded (res_status_json 400 (failure "All fields are required")))
  /\ (missing req = false -> malformed req = true ->
      result w (handler env req)
      = Responded (res_status_json 400 (failure "Invalid email address")))
  /\ (missing req = false -> malformed req = false ->
      unconfigured env = true ->
      result w (handler env req)
      = Responded (res_status_json 500
                     (failure "Email service is not configured")))
  /\ (missing req = false -> malformed req = false ->
      unconfigured env = false ->
      forall reason, w unit [] transporter_verify = Rejected reason ->
      result w (handler env req)
      = Responded (res_status_json 500
          (failure "Email service temporarily unavailable. Please try again later.")))
  /\ (result w (handler env req)
      = Responded (res_status_json 500
                     (failure "Email service is not configured")) ->
      missing req = false /\ malformed req = false)
  /\ malformed Sample.contact_empty_name = true
  /\ result w (handler env Sample.contact_empty_name)
     = Responded (res_status_json 400 (failure "All fields are required")).
Proof.
  split; [apply missing_iff|].
  split; [intros M; unfold result; rewrite contact_run_missing by exact M;
          reflexivity|].
  split; [intros M F; unfold result;
          rewrite contact_run_malformed by assumption; reflexivity|].
  split; [intros M F U; unfold result;
          rewrite contact_run_unconfigured by assumption; reflexivity|].
  split; [intros M F U reason V; unfold result;
          rewrite (contact_run_verify_rejected _ _ _ _ _ reason)
            by assumption; reflexivity|].
  split; [|split; [reflexivity|]].
  - unfold result.
    destruct (missing req) eqn:M.
    { rewrite contact_run_missing by exact M. intros H.
      vm_compute in H. discriminate H. }
    destruct (malformed req) eqn:F.
    { rewrite contact_run_malformed by assumption. intros H.
      vm_compute in H. discriminate H. }
    split; reflexivity.
  - unfold result. rewrite contact_run_missing; reflexivity.
Qed.

End ContactClaims.

Lemma C5_witness :
  run Sample.all_fulfilled
    (Contact.handler Sample.markup Sample.Date_toLocaleString Sample.env
       Sample.contact_empty_name)
  = ([], Responded (res_status_json 400
                      (Contact.failure "All fields are required")))
  /\ run Sample.all_fulfilled
       (Contact.handler Sample.markup Sample.Date_toLocaleString Sample.env
          Sample.contact_bad_email)
     = ([], Responded (res_status_json 400
                         (Contact.failure "Invalid email address")))
  /\ run Sample.all_fulfilled (Verify.handler Verify.q_undefined)
     = ([], Responded (res_status_json 400
              (JObject [("error"%string,
                         JString (js "Session ID is required"))]))).
Proof.
  destruct (C5_validation_failures_answered_400_before_any_call
              Sample.markup Sample.Date_toLocaleString) as (H1 & H2 & H3).
  split; [|split].
  - apply (H1 Sample.env Sample.contact_empty_name Sample.all_fulfilled
             (Some [])); simpl; auto.
  - apply (H2 Sample.env Sample.contact_bad_email Sample.all_fulfilled).
    intros H. apply emailRegex_test_iff in H. vm_compute in H.
    discriminate H.
  - apply (H3 Verify.q_undefined Sample.all_fulfilled).
    intros s H. discriminate H.
Defined.

Lemma C6_witness :
  result Sample.all_fulfilled
    (Contact.handler Sample.markup Sample.Date_toLocaleString Sample.env
       Sample.contact)
  = Responded (res_status_json 200
      (JObject
         [("success", JBool true);
          ("message", JString (js "Message sent successfully! You should receive a confirmation email shortly."))]%string))
  /\ mails (calls Sample.all_fulfilled
              (Contact.handler Sample.markup Sample.Date_toLocaleString
                 Sample.env Sample.contact))
     = [Contact.adminMailOptions Sample.markup Sample.Date_toLocaleString
          Sample.env Sample.contact;
        Contact.userMailOptions Sample.markup Sample.env Sample.contact]
  /\ map Mail.to
       (mails (calls Sample.all_fulfilled
                 (Contact.handler Sample.markup Sample.Date_toLocaleString
                    Sample.env Sample.contact)))
     = [or_else (ADMIN_EMAIL Sample.env) (EMAIL_USER Sample.env);
        Contact.email Sample.contact].
Proof.
  apply (C6_valid_contact_sends_admin_then_user
           Sample.markup Sample.Date_toLocaleString Sample.env Sample.contact
           Sample.all_fulfilled); reflexivity.
Defined.

Lemma C10_witness :
  result Sample.all_fulfilled
    (Contact.handler Sample.markup Sample.Date_toLocaleString Sample.no_env
       Sample.contact)
  = Responded (res_status_json 500
                 (Contact.failure "Email service is not configured"))
  /\ result Sample.all_fulfilled
       (Contact.handler Sample.markup Sample.Date_toLocaleString Sample.no_env
          Sample.contact_bad_email)
     = Responded (res_status_json 400
                    (Contact.failure "Invalid email address")).
Proof.
  split.
  - destruct (C10_contact_checks_run_in_order
                Sample.markup Sample.Date_toLocaleString Sample.no_env
                Sample.contact Sample.all_fulfilled)
      as (_ & _ & _ & H & _).
    apply H; reflexivity.
  - destruct (C10_contact_checks_run_in_order
                Sample.markup Sample.Date_toLocaleString Sample.no_env
                Sample.contact_bad_email Sample.all_fulfilled)
      as (_ & _ & H & _).
    apply H; reflexivity.
Defined.

(* ===================================================================== *)
(** * The claims about mail order, failures and receipts *)
(* ===================================================================== *)

Lemma fill_6 markup t a b c d e f :
  fill markup t [a; b; c; d; e; f]
  = (markup t 0 ++ a ++ markup t 1 ++ b ++ markup t 2 ++ c ++ markup t 3)
      ++ d ++ markup t 4 ++ e ++ (markup t 5 ++ f ++ markup t 6).
Proof.
  unfold fill. cbn [fill_from]. rewrite <- !app_assoc. reflexivity.
Qed.

Lemma fill_8 markup t a b c d e f g h :
  fill markup t [a; b; c; d; e; f; g; h]
  = (markup t 0 ++ a ++ markup t 1 ++ b ++ markup t 2 ++ c ++ markup t 3)
      ++ d
      ++ (markup t 4 ++ e ++ markup t 5 ++ f ++ markup t 6)
      ++ g ++ markup t 7 ++ h ++ markup t 8.
Proof.
  unfold fill. cbn [fill_from]. rewrite <- !app_assoc. reflexivity.
Qed.

Section MailClaims.

Variable markup : template -> nat -> jsstring.
Variable Number_toString : float -> jsstring.
Variable Date_toLocaleString : nat -> jsstring.
Variable today now : jsstring.

Local Abbreviation contact_handler :=
  (Contact.handler markup Date_toLocaleString).
Local Abbreviation contact_admin :=
  (Contact.adminMailOptions markup Date_toLocaleString).
Local Abbreviation contact_user := (Contact.userMailOptions markup).
Local Abbreviation receipt_handler :=
  (Receipt.handler markup Number_toString today now).
Local Abbreviation receipt_customer :=
  (Receipt.customerMailOptions markup Number_toString today).
Local Abbreviation receipt_admin :=
  (Receipt.adminMailOptions markup Number_toString now).
Local Abbreviation verify := (Call transporter_verify).
Local Abbreviation send m := (Call (transporter_sendMail m)).

(** C7, as amended. In the contact flow the mail to the site owner is
    handed to the relay first and the mail to the sender only once the first
    send has been fulfilled; in the receipt flow the mail to the customer is
    first and the mail to the site owner second. In either flow the second
    mail is not attempted when the first send is rejected. *)
Theorem C7_second_mail_waits_for_the_first
  (env : Env) (creq : Contact.ContactFormRequest)
  (rreq : Receipt.SendReceiptRequest) (w : world) :
  (Contact.missing creq = false -> Contact.malformed creq = false ->
   unconfigured env = false ->
   w unit [] transporter_verify = Fulfilled tt ->
   (w unit [verify] (transporter_sendMail (contact_admin env creq))
    = Fulfilled tt ->
    mails (calls w (contact_handler env creq))
    = [contact_admin env creq; contact_user env creq])
   /\ (forall reason,
         w unit [verify] (transporter_sendMail (contact_admin env creq))
         = Rejected reason ->
         mails (calls w (contact_handler env creq))
         = [contact_admin env creq]))
  /\ (unconfigured env = false ->
      (w unit [] (transporter_sendMail (receipt_customer env rreq))
       = Fulfilled tt ->
       mails (calls w (receipt_handler env rreq))
       = [receipt_customer env rreq; receipt_admin env rreq])
      /\ (forall reason,
            w unit [] (transporter_sendMail (receipt_customer env rreq))
            = Rejected reason ->
            mails (calls w (receipt_handler env rreq))
            = [receipt_customer env rreq])).
Proof.
  split.
  - intros M F U V. split.
    + intros A. unfold calls.
      destruct (w unit [verify; send (contact_admin env creq)]
                  (transporter_sendMail (contact_user env creq)))
        as [u|reason] eqn:S.
      * rewrite (contact_run_sent _ _ _ _ _ tt tt u M F U V A S). reflexivity.
      * rewrite (contact_run_user_rejected _ _ _ _ _ tt tt reason M F U V A S).
        reflexivity.
    + intros reason A. unfold calls.
      rewrite (contact_run_admin_rejected _ _ _ _ _ tt reason M F U V A).
      reflexivity.
  - intros U. split.
    + intros C. unfold calls.
      destruct (w unit [send (receipt_customer env rreq)]
                  (transporter_sendMail (receipt_admin env rreq)))
        as [u|reason] eqn:S.
      * rewrite (receipt_run_sent _ _ _ _ _ _ _ tt u U C S). reflexivity.
      * rewrite (receipt_run_admin_rejected _ _ _ _ _ _ _ tt reason U C S).
        reflexivity.
    + intros reason C. unfold calls.
      rewrite (receipt_run_customer_rejected _ _ _ _ _ _ _ reason U C).
      reflexivity.
Qed.

(** C8, as amended. When a call to the relay throws, the contact handler
    answers 500 with one of its five fixed messages. When a send throws in
    the receipt handler, or the gateway call throws in the checkout or the
    verification handler, the handler answers 500 with the message of the
    thrown error, as it is, in the error field. *)
Theorem C8_downstream_failures
  (env : Env) (creq : Contact.ContactFormRequest)
  (rreq : Receipt.SendReceiptRequest)
  (kreq : Checkout.CreateCheckoutSessionRequest) (session_id : jsstring)
  (w : world) (message : jsstring) :
  (Contact.missing creq = false -> Contact.malformed creq = false ->
   unconfigured env = false ->
   w unit [] transporter_verify = Rejected (ErrorObject message)
   \/ (w unit [] transporter_verify = Fulfilled tt
       /\ w unit [verify] (transporter_sendMail (contact_admin env creq))
          = Rejected (ErrorObject message))
   \/ (w unit [] transporter_verify = Fulfilled tt
       /\ w unit [verify] (transporter_sendMail (contact_admin env creq))
          = Fulfilled tt
       /\ w unit [verify; send (contact_admin env creq)]
            (transporter_sendMail (contact_user env creq))
          = Rejected (ErrorObject message)) ->
   exists public,
     In public Contact.public_messages
     /\ result w (contact_handler env creq)
        = Responded (res_status_json 500 (Contact.failure public)))
  /\ (unconfigured env = false ->
      w unit [] (transporter_sendMail (receipt_customer env rreq))
      = Rejected (ErrorObject message)
      \/ (w unit [] (transporter_sendMail (receipt_customer env rreq))
          = Fulfilled tt
          /\ w unit [send (receipt_customer env rreq)]
               (transporter_sendMail (receipt_admin env rreq))
             = Rejected (ErrorObject message)) ->
      result w (receipt_handler env rreq)
      = Responded (res_status_json 500
          (JObject [("error"%string, JString message)])))
  /\ (w _ [] (sessions_create (Checkout.params kreq))
      = Rejected (ErrorObject message) ->
      result w (Checkout.handler kreq)
      = Responded (res_status_json 500
          (JObject [("error"%string, JString message)])))
  /\ (truthy session_id = true ->
      w _ [] (sessions_retrieve session_id [js "payment_intent"])
      = Rejected (ErrorObject message) ->
      result w (Verify.handler (Verify.q_string session_id))
      = Responded (res_status_json 500
          (JObject [("error"%string, JString message)]))).
Proof.
  split; [|split; [|split]].
  - intros M F U [V|[(V & A)|(V & A & S)]]; unfold result.
    + rewrite (contact_run_verify_rejected _ _ _ _ _ _ M F U V).
      eexists. split; [|reflexivity]. simpl. auto.
    + rewrite (contact_run_admin_rejected _ _ _ _ _ tt _ M F U V A).
      eexists. split; [|reflexivity]. right. apply userErrorMessage_public.
    + rewrite (contact_run_user_rejected _ _ _ _ _ tt tt _ M F U V A S).
      eexists. split; [|reflexivity]. right. apply userErrorMessage_public.
  - intros U [C|(C & A)]; unfold result.
    + rewrite (receipt_run_customer_rejected _ _ _ _ _ _ _ _ U C). reflexivity.
    + rewrite (receipt_run_admin_rejected _ _ _ _ _ _ _ tt _ U C A).
      reflexivity.
  - intros H. unfold result. rewrite (checkout_run_rejected _ _ _ H).
    reflexivity.
  - intros T H. unfold result. rewrite (verify_run_rejected _ _ _ T H).
    reflexivity.
Qed.

(** C9. In both receipt mails the entry of an item shows the Number product
    of its price and quantity, formatted by [toFixed(2)], and depends on
    nothing but the item; the total shown is the total of the request,
    formatted the same way, whatever the items are; and the handler answers
    with success whenever both sends are fulfilled, whatever the total is. *)
Theorem C9_receipt_subtotals_computed_total_as_given
  (env : Env) (customerEmail orderId customerName shippingAddress : jsstring) :
  let request items total :=
    {| Receipt.customerEmail := customerEmail;
       Receipt.orderId := orderId;
       Receipt.items := items;
       Receipt.total := total;
       Receipt.customerName := customerName;
       Receipt.shippingAddress := shippingAddress |} in
  let toFixed := Number.toFixed Number_toString in
  (exists pre mid post, forall items total,
     Mail.html (receipt_customer env (request items total))
     = pre
         ++ join (map (Receipt.customerItem markup Number_toString) items)
         ++ mid ++ toFixed total 2 ++ post)
  /\ (exists p0 p1 p2 p3 p4, forall item,
        Receipt.customerItem markup Number_toString item
        = p0 ++ title item ++ p1 ++ Number_toString (quantity item)
            ++ p2 ++ toFixed (price item * quantity item)%float 2
            ++ p3 ++ toFixed (price item) 2 ++ p4)
  /\ (exists pre mid mid' post, forall items total,
        Mail.html (receipt_admin env (request items total))
        = pre ++ toFixed total 2 ++ mid
            ++ nat_toString (List.length items) ++ mid'
            ++ join (map (Receipt.adminItem Number_toString) items) ++ post)
  /\ (forall item,
        Receipt.adminItem Number_toString item
        = js "<li>" ++ title item ++ js " - $" ++ toFixed (price item) 2
            ++ js " x " ++ Number_toString (quantity item) ++ js " = $"
            ++ toFixed (price item * quantity item)%float 2 ++ js "</li>")
  /\ (forall items total (w : world),
        unconfigured env = false ->
        w unit [] (transporter_sendMail
                     (receipt_customer env (request items total)))
        = Fulfilled tt ->
        w unit [send (receipt_customer env (request items total))]
          (transporter_sendMail (receipt_admin env (request items total)))
        = Fulfilled tt ->
        result w (receipt_handler env (request items total))
        = Responded (res_json
            (JObject [("success", JBool true);
                      ("message", JString (js "Receipts sent successfully"));
                      ("orderId", JString orderId)]%string))).
Proof.
  intros request toFixed. subst toFixed.
  split; [|split; [|split; [|split]]].
  - exists (markup receipt_customer_html 0 ++ orderId
              ++ markup receipt_customer_html 1 ++ customerName
              ++ markup receipt_customer_html 2 ++ today
              ++ markup receipt_customer_html 3),
      (markup receipt_customer_html 4),
      (markup receipt_customer_html 5 ++ replace_commas shippingAddress
         ++ markup receipt_customer_html 6).
    intros items total.
    unfold Receipt.customerMailOptions, Receipt.toFixed. cbv [request].
    cbn [Mail.html Receipt.orderId Receipt.customerName Receipt.items
         Receipt.total Receipt.shippingAddress].
    apply fill_6.
  - exists (markup receipt_customer_item 0), (markup receipt_customer_item 1),
      (markup receipt_customer_item 2), (markup receipt_customer_item 3),
      (markup receipt_customer_item 4).
    intros item. reflexivity.
  - exists (markup receipt_admin_html 0 ++ orderId
              ++ markup receipt_admin_html 1 ++ customerName
              ++ markup receipt_admin_html 2 ++ customerEmail
              ++ markup receipt_admin_html 3),
      (markup receipt_admin_html 4 ++ now ++ markup receipt_admin_html 5
         ++ replace_commas shippingAddress ++ markup receipt_admin_html 6),
      (markup receipt_admin_html 7), (markup receipt_admin_html 8).
    intros items total.
    unfold Receipt.adminMailOptions, Receipt.toFixed. cbv [request].
    cbn [Mail.html Receipt.orderId Receipt.customerName Receipt.items
         Receipt.total Receipt.shippingAddress Receipt.customerEmail].
    rewrite fill_8. rewrite <- !app_assoc. reflexivity.
  - intros item. reflexivity.
  - intros items total w U C A. unfold result.
    rewrite (receipt_run_sent _ _ _ _ _ _ _ tt tt U C A). reflexivity.
Qed.

End MailClaims.

(** C7 as stated fails in the receipt flow: with every send fulfilled, the
    first mail goes to the customer and the second to the site owner. *)
Lemma C7_receipt_sends_customer_mail_first :
  map Mail.to
    (mails (calls Sample.all_fulfilled
              (Receipt.handler Sample.markup Sample.Number_toString
                 Sample.today Sample.now Sample.env Sample.receipt)))
  = [Some (js "buyer@example.com"); Some (js "owner@example.com")]
  /\ mails (calls Sample.all_fulfilled
              (Receipt.handler Sample.markup Sample.Number_toString
                 Sample.today Sample.now Sample.env Sample.receipt))
     <> [Receipt.adminMailOptions Sample.markup Sample.Number_toString
           Sample.now Sample.env Sample.receipt;
         Receipt.customerMailOptions Sample.markup Sample.Number_toString
           Sample.today Sample.env Sample.receipt].
Proof.
  split; [vm_compute; reflexivity|].
  intros H. apply (f_equal (map Mail.to)) in H.
  vm_compute in H. discriminate H.
Qed.

Lemma C7_witness :
  mails (calls (Sample.reject_nth 1 Sample.smtp_error)
           (Contact.handler Sample.markup Sample.Date_toLocaleString
              Sample.env Sample.contact))
  = [Contact.adminMailOptions Sample.markup Sample.Date_toLocaleString
       Sample.env Sample.contact]
  /\ mails (calls (Sample.reject_nth 0 Sample.smtp_error)
              (Receipt.handler Sample.markup Sample.Number_toString
                 Sample.today Sample.now Sample.env Sample.receipt))
     = [Receipt.customerMailOptions Sample.markup Sample.Number_toString
          Sample.today Sample.env Sample.receipt].
Proof.
  split.
  - destruct (C7_second_mail_waits_for_the_first
                Sample.markup Sample.Number_toString
                Sample.Date_toLocaleString Sample.today Sample.now
                Sample.env Sample.contact Sample.receipt
                (Sample.reject_nth 1 Sample.smtp_error)) as (H & _).
    destruct (H eq_refl eq_refl eq_refl eq_refl) as (_ & H').
    apply (H' Sample.smtp_error). reflexivity.
  - destruct (C7_second_mail_waits_for_the_first
                Sample.markup Sample.Number_toString
                Sample.Date_toLocaleString Sample.today Sample.now
                Sample.env Sample.contact Sample.receipt
                (Sample.reject_nth 0 Sample.smtp_error)) as (_ & H).
    destruct (H eq_refl) as (_ & H').
    apply (H' Sample.smtp_error). reflexivity.
Defined.

(** C8 as stated fails for the receipt handler: the text of the error the
    relay threw is what the caller receives. *)
Lemma C8_receipt_answers_with_the_raw_error_text :
  Sample.smtp_error = ErrorObject (js "connect ETIMEDOUT 10.0.0.5:465")
  /\ result (Sample.reject_nth 0 Sample.smtp_error)
       (Receipt.handler Sample.markup Sample.Number_toString
          Sample.today Sample.now Sample.env Sample.receipt)
     = Responded (res_status_json 500
         (JObject [("error"%string,
                    JString (js "connect ETIMEDOUT 10.0.0.5:465"))])).
Proof.
  split; reflexivity.
Qed.

Lemma C8_witness :
  (exists public,
     In public Contact.public_messages
     /\ result (Sample.reject_nth 1 Sample.smtp_error)
          (Contact.handler Sample.markup Sample.Date_toLocaleString
             Sample.env Sample.contact)
        = Responded (res_status_json 500 (Contact.failure public)))
  /\ result (Sample.reject_nth 1 Sample.smtp_error)
       (Receipt.handler Sample.markup Sample.Number_toString
          Sample.today Sample.now Sample.env Sample.receipt)
     = Responded (res_status_json 500
         (JObject [("error"%string,
                    JString (js "connect ETIMEDOUT 10.0.0.5:465"))]))
  /\ result (Sample.reject_nth 0 Sample.gateway_error)
       (Checkout.handler Sample.checkout_ngn)
     = Responded (res_status_json 500
         (JObject [("error"%string,
                    JString (js "Invalid API Key provided: sk_live_1234"))]))
  /\ result (Sample.reject_nth 0 Sample.gateway_error)
       (Verify.handler (Verify.q_string (js "cs_test_1")))
     = Responded (res_status_json 500
         (JObject [("error"%string,
                    JString (js "Invalid API Key provided: sk_live_1234"))])).
Proof.
  split; [|split; [|split]].
  - destruct (C8_downstream_failures
                Sample.markup Sample.Number_toString
                Sample.Date_toLocaleString Sample.today Sample.now
                Sample.env Sample.contact Sample.receipt Sample.checkout_ngn
                (js "cs_test_1") (Sample.reject_nth 1 Sample.smtp_error)
                (js "connect ETIMEDOUT 10.0.0.5:465")) as (H & _).
    apply H; try reflexivity.
    right. left. split; reflexivity.
  - destruct (C8_downstream_failures
                Sample.markup Sample.Number_toString
                Sample.Date_toLocaleString Sample.today Sample.now
                Sample.env Sample.contact Sample.receipt Sample.checkout_ngn
                (js "cs_test_1") (Sample.reject_nth 1 Sample.smtp_error)
                (js "connect ETIMEDOUT 10.0.0.5:465")) as (_ & H & _).
    apply H; [reflexivity|].
    right. split; reflexivity.
  - destruct (C8_downstream_failures
                Sample.markup Sample.Number_toString
                Sample.Date_toLocaleString Sample.today Sample.now
                Sample.env Sample.contact Sample.receipt Sample.checkout_ngn
                (js "cs_test_1") (Sample.reject_nth 0 Sample.gateway_error)
                (js "Invalid API Key provided: sk_live_1234"))
      as (_ & _ & H & _).
    apply H. reflexivity.
  - destruct (C8_downstream_failures
                Sample.markup Sample.Number_toString
                Sample.Date_toLocaleString Sample.today Sample.now
                Sample.env Sample.contact Sample.receipt Sample.checkout_ngn
                (js "cs_test_1") (Sample.reject_nth 0 Sample.gateway_error)
                (js "Invalid API Key provided: sk_live_1234"))
      as (_ & _ & _ & H).
    apply H; reflexivity.
Defined.

Lemma C9_witness :
  Receipt.total Sample.receipt = 1%float
  /\ map (fun item => (price item * quantity item)%float)
       (Receipt.items Sample.receipt) = [100%float]
  /\ result Sample.all_fulfilled
       (Receipt.handler Sample.markup Sample.Number_toString
          Sample.today Sample.now Sample.env Sample.receipt)
     = Responded (res_json
         (JObject [("success", JBool true);
                   ("message", JString (js "Receipts sent successfully"));
                   ("orderId", JString (js "ORD-1"))]%string)).
Proof.
  split; [reflexivity | split; [reflexivity|]].
  destruct (C9_receipt_subtotals_computed_total_as_given
              Sample.markup Sample.Number_toString Sample.today Sample.now
              Sample.env (js "buyer@example.com") (js "ORD-1") (js "Bo")
              (js "1 Main St, Lagos")) as (_ & _ & _ & _ & H).
  apply (H [Sample.painting] 1%float Sample.all_fulfilled); reflexivity.
Defined.

(* ===================================================================== *)
(** * More on Numbers: rounding of any finite Number *)
(* ===================================================================== *)

Section MoreRounding.

Local Open Scope Z_scope.

Lemma binary_round_aux_canonical_signed sx mz ez :
  Z.pos (digits2_pos mz) = 53 -> -52 <= ez <= 0 ->
  binary_round_aux prec emax sx (Z.pos mz) ez loc_Exact
  = S754_finite sx mz ez.
Proof.
  intros Hd He.
  assert (fexp prec emax (Z.pos (digits2_pos mz) + ez) - ez = 0) as Hf.
  { rewrite Hd. unfold fexp, emin, prec, emax. lia. }
  unfold binary_round_aux, shr_fexp.
  cbn [Zdigits2 shr_record_of_loc]. rewrite Hf.
  cbn [shr shr_m loc_of_shr_record round_nearest_even Zdigits2
       shr_record_of_loc].
  rewrite Hf. cbn [shr shr_m].
  replace (ez <=? emax - prec) with true; [reflexivity|].
  symmetry. apply Z.leb_le. unfold emax, prec. lia.
Qed.

Lemma binary_round_small sx p :
  Z.pos p < 2 ^ 53 ->
  exists mz ez,
    binary_round prec emax sx p 0 = S754_finite sx mz ez
    /\ valid_binary (S754_finite sx mz ez) = true
    /\ ez <= 0 /\ Z.pos mz = Z.pos p * 2 ^ (- ez).
Proof.
  intros Hp.
  pose proof (digits2_pos_bounds p) as [Hlo _].
  assert (Z.pos (digits2_pos p) <= 53) as Hd.
  { destruct (Z_le_gt_dec (Z.pos (digits2_pos p)) 53) as [L|G]; [exact L|].
    exfalso. assert (2 ^ 53 <= 2 ^ (Z.pos (digits2_pos p) - 1))
      by (apply Z.pow_le_mono_r; lia). lia. }
  assert (forall mz ez,
            Z.pos (digits2_pos mz) = 53 -> -52 <= ez <= 0 ->
            valid_binary (S754_finite sx mz ez) = true) as Valid.
  { intros mz ez Hm He.
    unfold SpecFloat.valid_binary, bounded, canonical_mantissa.
    rewrite Hm. apply andb_true_iff. split.
    - apply Z.eqb_eq. unfold fexp, emin, prec, emax. lia.
    - apply Z.leb_le. unfold prec, emax. lia. }
  unfold binary_round.
  assert (fexp prec emax (Z.pos (digits2_pos p) + 0)
          = Z.pos (digits2_pos p) - 53) as Hf.
  { unfold fexp, emin, prec, emax. lia. }
  rewrite Hf. unfold shl_align.
  destruct (Z.pos (digits2_pos p) - 53 - 0) as [|k|k] eqn:E; [| lia |].
  - assert (Z.pos (digits2_pos p) = 53) as D by lia.
    exists p, 0. rewrite binary_round_aux_canonical_signed by (lia || exact D).
    split; [reflexivity|]. split; [apply Valid; lia|]. simpl. lia.
  - assert (Z.pos (digits2_pos (Pos.iter xO p k)) = 53) as D
      by (rewrite iter_xO_digits; lia).
    exists (Pos.iter xO p k), (Z.pos (digits2_pos p) - 53).
    rewrite binary_round_aux_canonical_signed by (lia || exact D).
    split; [reflexivity|]. split; [apply Valid; lia|]. split; [lia|].
    rewrite iter_xO_value. f_equal. f_equal. lia.
Qed.

(** The Number made from a non-zero integer of magnitude below 2^53 has that
    integer as its exact value. *)
Lemma of_Z_exact_signed z :
  z <> 0 -> Z.abs z < 2 ^ 53 ->
  exists s m e,
    Prim2SF (Number.of_Z z) = S754_finite s m e
    /\ (Number.value s m e == inject_Z z)%Q.
Proof.
  intros Hz Hb.
  assert (forall sx p, Z.pos p < 2 ^ 53 ->
            exists m e,
              Prim2SF (SF2Prim (binary_round prec emax sx p 0))
              = S754_finite sx m e
              /\ (Number.value sx m e
                  == inject_Z (if sx then Z.neg p else Z.pos p))%Q) as K.
  { intros sx p Hp.
    destruct (binary_round_small sx p Hp) as (mz & ez & N & V & E & M).
    exists mz, ez. rewrite N. split; [apply Prim2SF_SF2Prim; exact V|].
    unfold Number.value. destruct (0 <=? ez) eqn:L.
    - apply Z.leb_le in L. assert (ez = 0) as -> by lia.
      change (- 0) with 0 in M. change (2 ^ 0) with 1 in M |- *.
      unfold Qeq, inject_Z. cbn [Qnum Qden].
      destruct sx; [rewrite <- !Pos2Z.opp_pos|]; lia.
    - unfold Qeq, inject_Z. cbn [Qnum Qden].
      apply Z.leb_gt in L. rewrite two_power_pos by lia.
      destruct sx; [rewrite <- !Pos2Z.opp_pos|]; lia. }
  destruct z as [|p|p]; [contradiction| |]; unfold Number.of_Z;
    cbn [binary_normalize].
  - destruct (K false p Hb) as (m & e & P & V). exists false, m, e. auto.
  - destruct (K true p Hb) as (m & e & P & V). exists true, m, e. auto.
Qed.

Lemma round_scaled_floor s m e :
  e < 0 ->
  Number.round_scaled 1 s m e = Qfloor (Number.value s m e + (1 # 2)).
Proof.
  intros He. unfold Number.round_scaled, Number.value.
  replace (0 <=? e) with false by (symmetry; apply Z.leb_gt; exact He).
  unfold Qfloor, Qplus. cbn [Qnum Qden].
  rewrite Pos2Z.inj_mul, two_power_pos by lia.
  rewrite Z.pow_add_r by lia. change (2 ^ 1) with 2.
  f_equal. destruct s; [rewrite <- Pos2Z.opp_pos|]; lia.
Qed.

Lemma round_scaled_magnitude s m e :
  e < 0 -> Z.abs (Number.round_scaled 1 s m e) <= Z.pos m.
Proof.
  intros He. unfold Number.round_scaled.
  replace (0 <=? e) with false by (symmetry; apply Z.leb_gt; exact He).
  assert (2 <= 2 ^ (- e)) as P.
  { change 2 with (2 ^ 1) at 1. apply Z.pow_le_mono_r; lia. }
  rewrite Z.pow_add_r by lia. change (2 ^ 1) with 2.
  destruct s.
  - assert (- Z.pos m <= (2 * (- Z.pos m * 1) + 2 ^ (- e)) / (2 ^ (- e) * 2)
            <= 0); [|lia].
    split.
    + apply Z.div_le_lower_bound; nia.
    + apply Z.lt_succ_r. apply Z.div_lt_upper_bound; nia.
  - assert (0 <= (2 * (Z.pos m * 1) + 2 ^ (- e)) / (2 ^ (- e) * 2)
            <= Z.pos m); [|lia].
    split.
    + apply Z.div_pos; lia.
    + apply Z.lt_succ_r. apply Z.div_lt_upper_bound; nia.
Qed.

Lemma value_integral_signed s m e :
  Number.integral m e = true ->
  exists z, (Number.value s m e == inject_Z z)%Q.
Proof.
  unfold Number.integral, Number.value. intros H.
  destruct (0 <=? e) eqn:He.
  - eexists. reflexivity.
  - simpl in H. apply Z.eqb_eq in H. apply Z.leb_gt in He.
    exists ((if s then -1 else 1) * (Z.pos m / 2 ^ (- e))).
    unfold Qeq, inject_Z. cbn [Qnum Qden].
    rewrite two_power_pos by lia.
    pose proof (Z.div_mod (Z.pos m) (2 ^ (- e))) as D.
    assert (2 ^ (- e) <> 0) as N by (apply Z.pow_nonzero; lia).
    specialize (D N).
    destruct s; [rewrite <- Pos2Z.opp_pos|]; nia.
Qed.

Lemma Qfloor_half_integer z : Qfloor (inject_Z z + (1 # 2)) = z.
Proof.
  unfold Qfloor, Qplus, inject_Z. cbn [Qnum Qden].
  change (Z.pos (1 * 2)) with 2.
  symmetry. apply Z.div_unique with (r := 1); lia.
Qed.

(** An integer-valued finite Number passes the test that [Math.round] makes
    for integral Numbers. *)
Lemma integral_of_value s m e z :
  (Number.value s m e == inject_Z z)%Q -> Number.integral m e = true.
Proof.
  unfold Number.integral, Number.value. destruct (0 <=? e) eqn:He;
    [reflexivity|].
  apply Z.leb_gt in He. unfold Qeq, inject_Z. cbn [Qnum Qden].
  rewrite two_power_pos by lia. intros E. simpl. apply Z.eqb_eq.
  assert (Z.pos m = (if s then - z else z) * 2 ^ (- e)) as ->.
  { destruct s; [rewrite <- Pos2Z.opp_pos in E|]; lia. }
  apply Z.mod_mul. apply Z.pow_nonzero; lia.
Qed.

(** What [Math.round] returns on a finite Number: the Number itself when it
    is integral, a zero, or the Number of a non-zero integer that is exactly
    the floor of the value plus one half. *)
Lemma Math_round_finite x s m e :
  Prim2SF x = S754_finite s m e ->
  (Number.integral m e = true /\ Number.Math_round x = x)
  \/ (Number.integral m e = false
      /\ Qfloor (Number.value s m e + (1 # 2)) = 0
      /\ Number.Math_round x = (if s then neg_zero else zero))
  \/ (Number.integral m e = false
      /\ exists s' m' e',
           Prim2SF (Number.Math_round x) = S754_finite s' m' e'
           /\ (Number.value s' m' e'
               == inject_Z (Qfloor (Number.value s m e + (1 # 2))))%Q).
Proof.
  intros Hx. unfold Number.Math_round. rewrite Hx.
  destruct (Number.integral m e) eqn:I; [left; auto|]. right.
  assert (e < 0) as He.
  { unfold Number.integral in I. apply orb_false_iff in I.
    destruct I as [I _]. apply Z.leb_gt in I. exact I. }
  rewrite <- (round_scaled_floor s m e He).
  pose proof (round_scaled_magnitude s m e He) as B.
  pose proof (mantissa_bound x s m e Hx) as Mb.
  destruct (Number.round_scaled 1 s m e =? 0) eqn:Z0.
  - apply Z.eqb_eq in Z0. left. auto.
  - apply Z.eqb_neq in Z0. right. split; [reflexivity|].
    apply of_Z_exact_signed; lia.
Qed.

End MoreRounding.

Lemma Math_round_whole x q :
  Number.exact (Number.Math_round x) = Some q ->
  exists z, (q == inject_Z z)%Q.
Proof.
  destruct (Prim2SF x) as [s|s| |s m e] eqn:Hx.
  - unfold Number.Math_round. rewrite Hx. unfold Number.exact. rewrite Hx.
    intros [= <-]. exists 0%Z. reflexivity.
  - unfold Number.Math_round. rewrite Hx. unfold Number.exact. rewrite Hx.
    discriminate.
  - unfold Number.Math_round. rewrite Hx. unfold Number.exact. rewrite Hx.
    discriminate.
  - destruct (Math_round_finite x s m e Hx)
      as [[I ->]|[(I & F & ->)|(I & s' & m' & e' & P & V)]].
    + unfold Number.exact. rewrite Hx. intros [= <-].
      apply (value_integral_signed s m e I).
    + destruct s; intros [= <-]; exists 0%Z; reflexivity.
    + unfold Number.exact. rewrite P. intros [= <-]. eexists. exact V.
Qed.

(** X1. [Math.round] on any finite Number, negative ones included, returns
    the Number whose exact value is the floor of the value plus one half
    (nearest integer, ties toward plus infinity); NaN and the infinities are
    returned as they are. *)
Theorem X1_Math_round_is_floor_of_value_plus_half (x : float) :
  (forall q,
     Number.exact x = Some q ->
     exists q',
       Number.exact (Number.Math_round x) = Some q'
       /\ (q' == inject_Z (Qfloor (q + (1 # 2))))%Q)
  /\ (Number.exact x = None -> Number.Math_round x = x).
Proof.
  split.
  - intros q. unfold Number.exact at 1.
    destruct (Prim2SF x) as [s|s| |s m e] eqn:Hx; try discriminate;
      intros [= <-].
    + exists 0%Q. unfold Number.Math_round, Number.exact. rewrite Hx, Hx.
      split; reflexivity.
    + destruct (Math_round_finite x s m e Hx)
        as [[I ->]|[(I & F & ->)|(I & s' & m' & e' & P & V)]].
      * unfold Number.exact. rewrite Hx. eexists. split; [reflexivity|].
        destruct (value_integral_signed s m e I) as (z & E).
        rewrite (Qfloor_comp _ (inject_Z z + (1 # 2))%Q),
          Qfloor_half_integer by (rewrite E; reflexivity).
        exact E.
      * rewrite F. exists 0%Q. split; [destruct s|]; reflexivity.
      * unfold Number.exact. rewrite P. eexists. split; [reflexivity|exact V].
  - unfold Number.exact, Number.Math_round.
    destruct (Prim2SF x); try discriminate; reflexivity.
Qed.

Lemma X1_witness :
  exists q',
    Number.exact (Number.Math_round (-2.5)%float) = Some q'
    /\ (q' == inject_Z (Qfloor (- (5 # 2) + (1 # 2))))%Q.
Proof.
  destruct (X1_Math_round_is_floor_of_value_plus_half (-2.5)%float) as (H & _).
  apply (H (Number.value true 5629499534213120 (-51))). reflexivity.
Defined.

Section WholeAmounts.

Import Checkout.

(** X2. Every amount the checkout handler forwards is a whole number of
    minor units whenever it is finite, and rounding an amount again leaves
    it as it is. *)
Theorem X2_forwarded_amounts_are_whole
  (req : CreateCheckoutSessionRequest) (w : world) :
  (forall li q,
     In li (forwarded req w) ->
     Number.exact (Stripe.unit_amount (Stripe.price_data li)) = Some q ->
     exists z, (q == inject_Z z)%Q)
  /\ (forall li,
        In li (forwarded req w) ->
        Number.Math_round (Stripe.unit_amount (Stripe.price_data li))
        = Stripe.unit_amount (Stripe.price_data li)).
Proof.
  rewrite checkout_forwarded.
  assert (forall li, In li (lineItems req) ->
            exists y, Stripe.unit_amount (Stripe.price_data li)
                      = Number.Math_round y) as R.
  { intros li H. unfold lineItems in H. apply in_app_or in H.
    destruct H as [H|[<-|[]]].
    - apply in_map_iff in H. destruct H as (item & <- & _).
      eexists. reflexivity.
    - eexists. reflexivity. }
  split.
  - intros li q H E. destruct (R li H) as (y & Hy). rewrite Hy in E.
    apply (Math_round_whole y q E).
  - intros li H. destruct (R li H) as (y & ->).
    destruct (Prim2SF y) as [s|s| |s m e] eqn:Hy;
      try (unfold Number.Math_round at 2 3; rewrite Hy; unfold Number.Math_round;
           rewrite Hy; reflexivity).
    destruct (Math_round_finite y s m e Hy)
      as [[I E]|[(I & F & E)|(I & s' & m' & e' & P & V)]].
    + rewrite E. exact E.
    + rewrite E. destruct s; reflexivity.
    + unfold Number.Math_round at 1. rewrite P.
      rewrite (integral_of_value s' m' e' _ V). reflexivity.
Qed.

End WholeAmounts.

Lemma X2_witness :
  exists z,
    (Number.value false 7036874417766400 (-46) == inject_Z z)%Q.
Proof.
  destruct (X2_forwarded_amounts_are_whole
              Sample.checkout_ngn Sample.all_fulfilled) as (H & _).
  apply (H (Checkout.lineItem Sample.checkout_ngn Sample.painting)).
  - left. reflexivity.
  - reflexivity.
Defined.

(* ===================================================================== *)
(** * Decimal digits read back *)
(* ===================================================================== *)

From Stdlib Require DecimalPos DecimalN DecimalNat Qabs.

Section Decimals.

Lemma js_String c s : js (String c s) = N_of_ascii c :: js s.
Proof. reflexivity. Qed.

Lemma js_app a b : js (a ++ b)%string = js a ++ js b.
Proof.
  induction a as [|c a IH]; [reflexivity|].
  simpl append. rewrite !js_String, IH. reflexivity.
Qed.

Lemma uint_of_codes_string d :
  uint_of_codes (js (NilEmpty.string_of_uint d)) = Some d.
Proof.
  induction d as [|d IH|d IH|d IH|d IH|d IH|d IH|d IH|d IH|d IH|d IH];
    [reflexivity|..];
    cbn [NilEmpty.string_of_uint]; rewrite js_String;
    cbn [uint_of_codes]; rewrite IH; reflexivity.
Qed.

Lemma uint_of_codes_NilZero d :
  exists d',
    uint_of_codes (js (NilZero.string_of_uint d)) = Some d'
    /\ N.of_uint d' = N.of_uint d.
Proof.
  destruct d; try (eexists; split; [apply (uint_of_codes_string (_ d)) |
                                    reflexivity]).
  exists (Decimal.D0 Decimal.Nil). split; reflexivity.
Qed.

Lemma js_NilZero_nonempty d : js (NilZero.string_of_uint d) <> [].
Proof. destruct d; discriminate. Qed.

Lemma read_decimal_NilZero d :
  read_decimal (js (NilZero.string_of_uint d)) = Some (N.of_uint d).
Proof.
  unfold read_decimal. pose proof (js_NilZero_nonempty d) as H.
  destruct (js (NilZero.string_of_uint d)) eqn:E; [contradiction|].
  rewrite <- E. destruct (uint_of_codes_NilZero d) as (d' & -> & <-).
  reflexivity.
Qed.

Lemma read_decimal_digits z :
  read_decimal (Number.digits z) = Some (Z.to_N z).
Proof.
  unfold Number.digits. rewrite read_decimal_NilZero.
  rewrite DecimalN.Unsigned.of_to. reflexivity.
Qed.

Lemma of_lu_N_nat d :
  DecimalPos.Unsigned.of_lu d = N.of_nat (DecimalNat.Unsigned.of_lu d).
Proof.
  induction d;
    cbn [DecimalPos.Unsigned.of_lu DecimalNat.Unsigned.of_lu];
    rewrite ?Nat2N.inj_add, ?Nat2N.inj_mul, <- ?IHd; reflexivity.
Qed.

Lemma read_decimal_nat_toString n :
  read_decimal (nat_toString n) = Some (N.of_nat n).
Proof.
  unfold nat_toString. rewrite read_decimal_NilZero. f_equal.
  unfold N.of_uint. rewrite DecimalPos.Unsigned.of_uint_alt, of_lu_N_nat.
  rewrite <- DecimalNat.Unsigned.of_uint_alt, DecimalNat.Unsigned.of_to.
  reflexivity.
Qed.

(** Leading zeros do not change what is read. *)
Lemma read_decimal_zeros j s n :
  read_decimal s = Some n -> read_decimal (repeat 48%N j ++ s) = Some n.
Proof.
  intros H. induction j as [|j IH]; [exact H|].
  cbn [repeat app]. unfold read_decimal in IH |- *.
  destruct (repeat 48%N j ++ s) as [|c l]; [discriminate IH|].
  change (uint_of_codes (48%N :: c :: l))
    with (match uint_of_codes (c :: l) with
          | None => None
          | Some d => Some (Decimal.D0 d)
          end).
  destruct (uint_of_codes (c :: l)) as [d|]; [exact IH | discriminate IH].
Qed.

End Decimals.

(* ===================================================================== *)
(** * What toFixed shows *)
(* ===================================================================== *)

Section ToFixed.

Lemma fixed_digits_shape n f :
  (0 <= n)%Z ->
  exists a b,
    Number.fixed_digits n (S f) = a ++ js "." ++ b
    /\ List.length b = S f /\ a <> []
    /\ read_decimal (a ++ b) = Some (Z.to_N n).
Proof.
  intros Hn. unfold Number.fixed_digits.
  pose proof (read_decimal_digits n) as R.
  assert (1 <= List.length (Number.digits n)) as L.
  { unfold Number.digits.
    pose proof (js_NilZero_nonempty (N.to_uint (Z.to_N n))) as H.
    destruct (js _); [contradiction | simpl; lia]. }
  set (m0 := Number.digits n) in *. clearbody m0.
  set (m := if List.length m0 <=? S f
            then repeat 48%N (S f + 1 - List.length m0) ++ m0 else m0).
  assert (S f < List.length m /\ read_decimal m = Some (Z.to_N n))
    as [Lm Rm].
  { unfold m. clear m. destruct (Nat.leb_spec (List.length m0) (S f)) as [Le|Gt].
    - split; [rewrite length_app, repeat_length; unfold code_unit in *; lia|].
      apply read_decimal_zeros. exact R.
    - split; [unfold code_unit in *; lia | exact R]. }
  clearbody m. unfold code_unit in *.
  exists (firstn (List.length m - S f) m), (skipn (List.length m - S f) m).
  split; [reflexivity|]. split; [rewrite length_skipn; lia|]. split.
  - intros E. apply (f_equal (@List.length _)) in E.
    rewrite length_firstn in E. simpl in E. lia.
  - rewrite firstn_skipn. exact Rm.
Qed.

Local Open Scope Z_scope.

Lemma round_scaled_nonneg scale m e :
  0 <= scale -> 0 <= Number.round_scaled scale false m e.
Proof.
  intros Hs. unfold Number.round_scaled. destruct (0 <=? e) eqn:E.
  - apply Z.leb_le in E. apply Z.mul_nonneg_nonneg; [lia|].
    apply Z.pow_nonneg; lia.
  - apply Z.leb_gt in E.
    assert (0 < 2 ^ (- e)) by (apply Z.pow_pos_nonneg; lia).
    assert (0 < 2 ^ (- e + 1)) by (apply Z.pow_pos_nonneg; lia).
    apply Z.div_pos; nia.
Qed.

(** The hundredths that [toFixed(2)] shows are within half a hundredth of
    the magnitude shown. *)
Lemma round_scaled_hundredths m e :
  (Qabs.Qabs ((Number.round_scaled 100 false m e # 100) - Number.value false m e)
   <= 1 # 200)%Q.
Proof.
  unfold Number.round_scaled, Number.value. destruct (0 <=? e) eqn:E.
  - unfold Qle, Qabs.Qabs, Qminus, Qplus, Qopp, inject_Z. cbn [Qnum Qden].
    replace (Z.pos m * 100 * 2 ^ e * 1 + - (Z.pos m * 2 ^ e) * 100) with 0
      by ring.
    simpl. lia.
  - apply Z.leb_gt in E.
    assert (0 < 2 ^ (- e)) as P by (apply Z.pow_pos_nonneg; lia).
    unfold Qle, Qabs.Qabs, Qminus, Qplus, Qopp. cbn [Qnum Qden].
    rewrite !Pos2Z.inj_mul, two_power_pos by lia.
    rewrite Z.pow_add_r by lia. change (2 ^ 1) with 2.
    set (D := 2 ^ (- e)) in *.
    set (r := (2 * (Z.pos m * 100) + D) / (D * 2)).
    pose proof (Z.div_mod (2 * (Z.pos m * 100) + D) (D * 2)) as DM.
    pose proof (Z.mod_pos_bound (2 * (Z.pos m * 100) + D) (D * 2)) as MB.
    fold r in DM. lia.
Qed.

End ToFixed.

(** X3. For a Number of magnitude below 10^21, [toFixed(2)] is a minus sign
    if the Number is negative, then at least one digit, a full stop and
    exactly two digits; read without the full stop, the digits are a number
    of hundredths within half a hundredth of the magnitude. A zero of either
    sign is shown as 0.00. *)
Theorem X3_toFixed_shows_hundredths_within_half_a_hundredth
  (Number_toString : float -> jsstring) (x : float) :
  (forall s, Prim2SF x = S754_zero s ->
             Number.toFixed Number_toString x 2 = js "0.00")
  /\ (forall s m e,
        Prim2SF x = S754_finite s m e ->
        (Number.value false m e < inject_Z (10 ^ 21))%Q ->
        exists n a b,
          Number.toFixed Number_toString x 2
          = (if s then js "-" else []) ++ a ++ js "." ++ b
          /\ List.length b = 2 /\ a <> []
          /\ read_decimal (a ++ b) = Some n
          /\ (Qabs.Qabs ((Z.of_N n # 100) - Number.value false m e)
              <= 1 # 200)%Q).
Proof.
  split.
  - intros s Hx. unfold Number.toFixed. rewrite Hx. reflexivity.
  - intros s m e Hx Hlt. unfold Number.toFixed. rewrite Hx.
    replace ((0 <=? e)%Z && (10 ^ 21 <=? Z.pos m * 2 ^ e)%Z) with false.
    + change (10 ^ Z.of_nat 2)%Z with 100%Z.
      pose proof (round_scaled_nonneg 100 m e) as P.
      destruct (fixed_digits_shape (Number.round_scaled 100 false m e) 1)
        as (a & b & E & Lb & Na & R); [apply P; lia|].
      exists (Z.to_N (Number.round_scaled 100 false m e)), a, b.
      rewrite E. repeat (split; [assumption || reflexivity|]).
      rewrite Z2N.id by (apply P; lia).
      apply round_scaled_hundredths.
    + symmetry. apply andb_false_iff.
      unfold Number.value in Hlt. destruct (0 <=? e)%Z; [right|left; reflexivity].
      apply Z.leb_gt. unfold Qlt, inject_Z in Hlt. cbn [Qnum Qden] in Hlt.
      lia.
Qed.

Lemma X3_witness :
  exists n a b,
    Number.toFixed Sample.Number_toString 1.005%float 2
    = [] ++ a ++ js "." ++ b
    /\ List.length b = 2 /\ a <> []
    /\ read_decimal (a ++ b) = Some n
    /\ (Qabs.Qabs ((Z.of_N n # 100)
                   - Number.value false 4526117625507348 (-52))
        <= 1 # 200)%Q.
Proof.
  destruct (X3_toFixed_shows_hundredths_within_half_a_hundredth
              Sample.Number_toString 1.005%float) as (_ & H).
  apply (H false 4526117625507348%positive (-52)%Z); reflexivity.
Defined.

(* ===================================================================== *)
(** * Substrings, commas and interpolation *)
(* ===================================================================== *)

Section Strings.

Lemma startsWith_iff s p : startsWith s p = true <-> exists b, s = p ++ b.
Proof.
  revert s. induction p as [|x p IH]; intros [|y s]; simpl.
  - split; [intros _; exists []; reflexivity | reflexivity].
  - split; [intros _; exists (y :: s); reflexivity | reflexivity].
  - split; [discriminate | intros (b & E); discriminate E].
  - rewrite andb_true_iff, N.eqb_eq, IH. split.
    + intros (-> & b & ->). exists b. reflexivity.
    + intros (b & [= -> ->]). split; [reflexivity | exists b; reflexivity].
Qed.

(** [includes] finds exactly the substrings. *)
Lemma String_includes_iff s p :
  String_includes s p = true <-> substring p s.
Proof.
  unfold substring. induction s as [|c s IH].
  - cbn [String_includes]. rewrite orb_false_r, startsWith_iff. split.
    + intros (b & E). exists [], b. exact E.
    + intros (a & b & E). destruct a; [exists b; exact E|discriminate E].
  - cbn [String_includes]. rewrite orb_true_iff, startsWith_iff, IH. split.
    + intros [(b & E)|(a & b & E)].
      * exists [], b. exact E.
      * exists (c :: a), b. rewrite E. reflexivity.
    + intros (a & b & E). destruct a as [|c' a].
      * left. exists b. exact E.
      * right. injection E as -> ->. exists a, b. reflexivity.
Qed.

Lemma substring_fill markup t values i v :
  In v values -> substring v (fill_from markup t i values).
Proof.
  revert i. induction values as [|v' values IH]; intros i; [intros []|].
  intros [->|H]; cbn [fill_from].
  - exists (markup t i), (fill_from markup t (S i) values). reflexivity.
  - destruct (IH (S i) H) as (a & b & E). rewrite E.
    exists (markup t i ++ v' ++ a), b. rewrite <- !app_assoc. reflexivity.
Qed.

Lemma replace_commas_app a b :
  replace_commas (a ++ b) = replace_commas a ++ replace_commas b.
Proof. unfold replace_commas. apply flat_map_app. Qed.

End Strings.

(** X4. The message the contact handler chooses for a failed send depends on
    which marker occurs in the error text as a substring, in this order of
    precedence: Invalid login or BadCredentials, then EAUTH, then
    ECONNREFUSED; an error text with none of them gets the general
    message. *)
Theorem X4_contact_error_message_by_first_marker (errorMessage : jsstring) :
  (substring (js "Invalid login") errorMessage
   \/ substring (js "BadCredentials") errorMessage ->
   Contact.userErrorMessage errorMessage
   = "Email authentication failed. Please contact administrator."%string)
  /\ (~ substring (js "Invalid login") errorMessage ->
      ~ substring (js "BadCredentials") errorMessage ->
      substring (js "EAUTH") errorMessage ->
      Contact.userErrorMessage errorMessage
      = "Email authentication failed. Please check your email configuration."%string)
  /\ (~ substring (js "Invalid login") errorMessage ->
      ~ substring (js "BadCredentials") errorMessage ->
      ~ substring (js "EAUTH") errorMessage ->
      substring (js "ECONNREFUSED") errorMessage ->
      Contact.userErrorMessage errorMessage
      = "Unable to connect to email server. Please try again later."%string)
  /\ (~ substring (js "Invalid login") errorMessage ->
      ~ substring (js "BadCredentials") errorMessage ->
      ~ substring (js "EAUTH") errorMessage ->
      ~ substring (js "ECONNREFUSED") errorMessage ->
      Contact.userErrorMessage errorMessage
      = "Failed to send message. Please try again later."%string).
Proof.
  unfold Contact.userErrorMessage.
  destruct (String_includes errorMessage (js "Invalid login")) eqn:A;
    [apply String_includes_iff in A|];
    (destruct (String_includes errorMessage (js "BadCredentials")) eqn:B;
     [apply String_includes_iff in B|]);
    (destruct (String_includes errorMessage (js "EAUTH")) eqn:C;
     [apply String_includes_iff in C|]);
    (destruct (String_includes errorMessage (js "ECONNREFUSED")) eqn:D;
     [apply String_includes_iff in D|]);
    cbn [orb];
    repeat match goal with
           | H : String_includes _ ?p = false |- _ =>
               assert (~ substring p errorMessage)
                 by (rewrite <- String_includes_iff, H; discriminate);
               clear H
           end;
    repeat split; intros; try reflexivity; try tauto.
Qed.

Lemma X4_witness :
  Contact.userErrorMessage (js "connect ECONNREFUSED 10.0.0.5:465")
  = "Unable to connect to email server. Please try again later."%string.
Proof.
  destruct (X4_contact_error_message_by_first_marker
              (js "connect ECONNREFUSED 10.0.0.5:465")) as (_ & _ & H & _).
  apply H.
  - rewrite <- String_includes_iff. vm_compute. discriminate.
  - rewrite <- String_includes_iff. vm_compute. discriminate.
  - rewrite <- String_includes_iff. vm_compute. discriminate.
  - exists (js "connect "), (js " 10.0.0.5:465"). reflexivity.
Defined.

(** X5. Replacing the commas of a shipping address leaves no comma, keeps an
    address without commas as it is, lengthens the address by three code
    units per comma, and can be done piecewise. *)
Theorem X5_replace_commas (s : jsstring) :
  ~ In comma (replace_commas s)
  /\ (~ In comma s -> replace_commas s = s)
  /\ List.length (replace_commas s)
     = List.length s + 3 * count_occ N.eq_dec s comma
  /\ (forall t, replace_commas (s ++ t) = replace_commas s ++ replace_commas t).
Proof.
  split; [|split; [|split]].
  - induction s as [|c s IH]; [intros []|].
    change (replace_commas (c :: s))
      with ((if N.eqb c comma then js "<br>" else [c]) ++ replace_commas s).
    intros H. apply in_app_or in H. destruct H as [H|H]; [|contradiction].
    destruct (N.eqb_spec c comma) as [->|Ne].
    + vm_compute in H. intuition discriminate.
    + destruct H as [H|[]]. congruence.
  - induction s as [|c s IH]; [reflexivity|]. intros H.
    change (replace_commas (c :: s))
      with ((if N.eqb c comma then js "<br>" else [c]) ++ replace_commas s).
    destruct (N.eqb_spec c comma) as [->|Ne].
    + exfalso. apply H. left. reflexivity.
    + rewrite IH; [reflexivity|]. intros H'. apply H. right. exact H'.
  - induction s as [|c s IH]; [reflexivity|].
    change (replace_commas (c :: s))
      with ((if N.eqb c comma then js "<br>" else [c]) ++ replace_commas s).
    rewrite length_app, IH. cbn [count_occ List.length].
    destruct (N.eqb_spec c comma) as [->|Ne].
    + destruct (N.eq_dec comma comma) as [_|Ne]; [|contradiction].
      change (List.length (js "<br>")) with 4. lia.
    + destruct (N.eq_dec c comma) as [E|_]; [contradiction|]. simpl. lia.
  - apply replace_commas_app.
Qed.

Lemma X5_witness :
  replace_commas (js "1 Main St Lagos") = js "1 Main St Lagos".
Proof.
  destruct (X5_replace_commas (js "1 Main St Lagos")) as (_ & H & _).
  apply H. vm_compute. intuition discriminate.
Defined.

Lemma substring_trans a b c : substring a b -> substring b c -> substring a c.
Proof.
  intros (x & y & ->) (u & v & ->).
  exists (u ++ x), (y ++ v). rewrite <- !app_assoc. reflexivity.
Qed.

Lemma substring_join (l : list jsstring) s : In s l -> substring s (join l).
Proof.
  induction l as [|t l IH]; [intros []|].
  intros [->|H]; unfold join; cbn [List.concat].
  - exists [], (List.concat l). reflexivity.
  - destruct (IH H) as (a & b & E). unfold join in E. rewrite E.
    exists (t ++ a), b. rewrite <- app_assoc. reflexivity.
Qed.

Section Interpolation.

Variable markup : template -> nat -> jsstring.
Variable Number_toString : float -> jsstring.
Variable Date_toLocaleString : nat -> jsstring.
Variable today now : jsstring.
Variable env : Env.

(** X6. The fields of a request go into the mail bodies as they are, with
    nothing escaped: each field of a contact form occurs as a substring of
    both bodies of the mail to the site owner and (but for the email) of the
    acknowledgment, and the order id, the customer name and every item title
    of a receipt occur in both receipt mails. *)
Theorem X6_fields_are_interpolated_verbatim
  (creq : Contact.ContactFormRequest) (rreq : Receipt.SendReceiptRequest) :
  (forall v,
     In v [interp (Contact.name creq); interp (Contact.email creq);
           interp (Contact.subject creq); interp (Contact.message creq)] ->
     substring v
       (Mail.html (Contact.adminMailOptions markup Date_toLocaleString
                     env creq))
     /\ exists text,
          Mail.text (Contact.adminMailOptions markup Date_toLocaleString
                       env creq) = Some text
          /\ substring v text)
  /\ (forall v,
        In v [interp (Contact.name creq); interp (Contact.subject creq);
              interp (Contact.message creq)] ->
        substring v (Mail.html (Contact.userMailOptions markup env creq))
        /\ exists text,
             Mail.text (Contact.userMailOptions markup env creq) = Some text
             /\ substring v text)
  /\ (forall v,
        In v (Receipt.orderId rreq :: Receipt.customerName rreq
                :: map title (Receipt.items rreq)) ->
        substring v
          (Mail.html (Receipt.customerMailOptions markup Number_toString
                        today env rreq))
        /\ substring v
             (Mail.html (Receipt.adminMailOptions markup Number_toString
                           now env rreq))).
Proof.
  split; [|split].
  - intros v H. split.
    + apply substring_fill. simpl in H |- *. tauto.
    + eexists. split; [reflexivity|]. apply substring_fill.
      simpl in H |- *. tauto.
  - intros v H. split.
    + apply substring_fill. simpl in H |- *. tauto.
    + eexists. split; [reflexivity|]. apply substring_fill.
      simpl in H |- *. tauto.
  - intros v H.
    assert (v = Receipt.orderId rreq \/ v = Receipt.customerName rreq
            \/ exists item, In item (Receipt.items rreq) /\ v = title item)
      as [->|[->|(item & Hi & ->)]].
    { destruct H as [<-|[<-|H]]; auto. apply in_map_iff in H.
      destruct H as (item & <- & Hi). right. right. exists item. auto. }
    + split; apply substring_fill; simpl; auto.
    + split; apply substring_fill; simpl; auto.
    + split.
      * apply substring_trans
          with (join (map (Receipt.customerItem markup Number_toString)
                        (Receipt.items rreq)));
          [|apply substring_fill; simpl; auto 10].
        apply substring_trans
          with (Receipt.customerItem markup Number_toString item);
          [|apply substring_join; apply in_map; exact Hi].
        apply substring_fill. simpl. auto.
      * apply substring_trans
          with (join (map (Receipt.adminItem Number_toString)
                        (Receipt.items rreq)));
          [|apply substring_fill; simpl; auto 10].
        apply substring_trans with (Receipt.adminItem Number_toString item);
          [|apply substring_join; apply in_map; exact Hi].
        exists (js "<li>"). eexists. reflexivity.
Qed.

End Interpolation.

Lemma X6_witness :
  substring (js "Do you sell prints?")
    (Mail.html (Contact.adminMailOptions Sample.markup
                  Sample.Date_toLocaleString Sample.env Sample.contact))
  /\ substring (js "Painting A")
       (Mail.html (Receipt.adminMailOptions Sample.markup
                     Sample.Number_toString Sample.now Sample.env
                     Sample.receipt)).
Proof.
  destruct (X6_fields_are_interpolated_verbatim
              Sample.markup Sample.Number_toString Sample.Date_toLocaleString
              Sample.today Sample.now Sample.env Sample.contact
              Sample.receipt) as (H1 & _ & H3).
  split.
  - apply (H1 (js "Do you sell prints?")). simpl. auto.
  - apply (H3 (js "Painting A")). simpl. auto.
Defined.

(* ===================================================================== *)
(** * Every run of the mail handlers *)
(* ===================================================================== *)

Section EveryContactRun.

Import Contact.

Variable markup : template -> nat -> jsstring.
Variable Date_toLocaleString : nat -> jsstring.
Variable env : Env.
Variable req : ContactFormRequest.
Variable w : world.

Local Abbreviation handler := (Contact.handler markup Date_toLocaleString env req).
Local Abbreviation admin := (adminMailOptions markup Date_toLocaleString env req).
Local Abbreviation user := (userMailOptions markup env req).
Local Abbreviation verify := (Call transporter_verify).
Local Abbreviation send m := (Call (transporter_sendMail m)).

(** The run of the contact handler, whatever the request, the environment
    and the relay. *)
Lemma contact_run_eq :
  run w handler
  = if missing req
    then ([], Responded (res_status_json 400
                           (failure "All fields are required")))
    else if malformed req
    then ([], Responded (res_status_json 400
                           (failure "Invalid email address")))
    else if unconfigured env
    then ([], Responded (res_status_json 500
                           (failure "Email service is not configured")))
    else
      match w unit [] transporter_verify with
      | Rejected _ =>
          ([verify],
           Responded (res_status_json 500
             (failure "Email service temporarily unavailable. Please try again later.")))
      | Fulfilled _ =>
          match w unit [verify] (transporter_sendMail admin) with
          | Rejected reason =>
              ([verify; send admin],
               Responded (res_status_json 500
                 (failure (userErrorMessage (errorMessage reason)))))
          | Fulfilled _ =>
              match w unit [verify; send admin] (transporter_sendMail user)
              with
              | Rejected reason =>
                  ([verify; send admin; send user],
                   Responded (res_status_json 500
                     (failure (userErrorMessage (errorMessage reason)))))
              | Fulfilled _ =>
                  ([verify; send admin; send user],
                   Responded (res_status_json 200
                     (JObject
                        [("success", JBool true);
                         ("message", JString (js "Message sent successfully! You should receive a confirmation email shortly."))]%string)))
              end
          end
      end.
Proof.
  destruct (missing req) eqn:M; [apply contact_run_missing; exact M|].
  destruct (malformed req) eqn:F; [apply contact_run_malformed; assumption|].
  destruct (unconfigured env) eqn:U;
    [apply contact_run_unconfigured; assumption|].
  destruct (w unit [] transporter_verify) as [u|reason] eqn:V;
    [|apply (contact_run_verify_rejected _ _ _ _ _ reason); assumption].
  destruct (w unit [verify] (transporter_sendMail admin)) as [u'|reason] eqn:A;
    [|apply (contact_run_admin_rejected _ _ _ _ _ u reason); assumption].
  destruct (w unit [verify; send admin] (transporter_sendMail user))
    as [u''|reason] eqn:S;
    [|apply (contact_run_user_rejected _ _ _ _ _ u u' reason); assumption].
  apply (contact_run_sent _ _ _ _ _ u u' u''); assumption.
Qed.

(** X7. Every run of the contact handler ends with a response, of status
    200, 400 or 500; the status is 200 exactly when the request passed both
    tests, the credentials are configured, and the relay fulfilled the
    verification and both sends; and the calls made are always an initial
    part of verify, send to the site owner, send to the sender. *)
Theorem X7_contact_answers_200_only_after_both_sends :
  exists r,
    result w handler = Responded r
    /\ In (status r) [200; 400; 500]
    /\ (status r = 200
        <-> missing req = false /\ malformed req = false
            /\ unconfigured env = false
            /\ (exists u, w unit [] transporter_verify = Fulfilled u)
            /\ (exists u, w unit [verify] (transporter_sendMail admin)
                          = Fulfilled u)
            /\ (exists u, w unit [verify; send admin]
                            (transporter_sendMail user) = Fulfilled u))
    /\ (status r = 200 -> mails (calls w handler) = [admin; user])
    /\ exists n, calls w handler = firstn n [verify; send admin; send user].
Proof.
  unfold result, calls. rewrite contact_run_eq.
  destruct (missing req).
  { eexists. split; [reflexivity|]. split; [simpl; auto|]. split;
      [split; [discriminate | intros (H & _); discriminate H]|].
    split; [discriminate | exists 0; reflexivity]. }
  destruct (malformed req).
  { eexists. split; [reflexivity|]. split; [simpl; auto|]. split;
      [split; [discriminate | intros (_ & H & _); discriminate H]|].
    split; [discriminate | exists 0; reflexivity]. }
  destruct (unconfigured env).
  { eexists. split; [reflexivity|]. split; [simpl; auto|]. split;
      [split; [discriminate | intros (_ & _ & H & _); discriminate H]|].
    split; [discriminate | exists 0; reflexivity]. }
  destruct (w unit [] transporter_verify) as [u|reason].
  2:{ eexists. split; [reflexivity|]. split; [simpl; auto|]. split;
        [split; [discriminate
                | intros (_ & _ & _ & (u & H) & _); discriminate H]|].
      split; [discriminate | exists 1; reflexivity]. }
  destruct (w unit [verify] (transporter_sendMail admin)) as [u'|reason].
  2:{ eexists. split; [reflexivity|]. split; [simpl; auto|]. split;
        [split; [discriminate
                | intros (_ & _ & _ & _ & (u' & H) & _); discriminate H]|].
      split; [discriminate | exists 2; reflexivity]. }
  destruct (w unit [verify; send admin] (transporter_sendMail user))
    as [u''|reason].
  2:{ eexists. split; [reflexivity|]. split; [simpl; auto|]. split;
        [split; [discriminate
                | intros (_ & _ & _ & _ & _ & (u'' & H)); discriminate H]|].
      split; [discriminate | exists 3; reflexivity]. }
  eexists. split; [reflexivity|]. split; [simpl; auto|]. split.
  - split; [intros _|reflexivity].
    repeat (split; [reflexivity || (eexists; reflexivity)|]).
    eexists; reflexivity.
  - split; [reflexivity | exists 3; reflexivity].
Qed.

(** X8. No mail leaves the contact handler without a recipient: in every
    run, each mail handed to the relay has a non-empty address in its to
    field, the mail to the sender goes to an address that matches the email
    pattern, and the mail to the site owner bears the sender's address as
    its reply-to. *)
Theorem X8_contact_mails_have_recipients :
  Forall (fun m => truthy_opt (Mail.to m) = true) (mails (calls w handler))
  /\ (forall m, In m (mails (calls w handler)) ->
        m = admin \/ m = user)
  /\ (In user (mails (calls w handler)) ->
      local_at_domain_tld (interp (Mail.to user)))
  /\ (In admin (mails (calls w handler)) ->
      Mail.replyTo admin = email req /\ truthy_opt (email req) = true).
Proof.
  unfold calls. rewrite contact_run_eq.
  destruct (missing req) eqn:M.
  { simpl. repeat split; try constructor; intros; contradiction. }
  destruct (malformed req) eqn:F.
  { simpl. repeat split; try constructor; intros; contradiction. }
  destruct (unconfigured env) eqn:U.
  { simpl. repeat split; try constructor; intros; contradiction. }
  assert (truthy_opt (email req) = true) as Te.
  { unfold missing in M. apply orb_false_iff in M. destruct M as [M _].
    apply orb_false_iff in M. destruct M as [M _].
    apply orb_false_iff in M. destruct M as [_ M].
    apply negb_false_iff in M. exact M. }
  assert (truthy_opt (Mail.to admin) = true) as Ta.
  { cbn [Mail.to adminMailOptions]. unfold adminEmail, or_else.
    destruct (truthy_opt (ADMIN_EMAIL env)) eqn:A; [exact A|].
    unfold unconfigured in U. apply orb_false_iff in U. destruct U as [U _].
    apply negb_false_iff in U. exact U. }
  assert (local_at_domain_tld (interp (Mail.to user))) as Pu.
  { apply emailRegex_test_iff. unfold malformed in F.
    apply negb_false_iff in F. exact F. }
  destruct (w unit [] transporter_verify) as [u|reason].
  2:{ simpl. repeat split; try constructor; intros; contradiction. }
  destruct (w unit [verify] (transporter_sendMail admin)) as [u'|reason].
  2:{ cbn [fst mails flat_map sent_mail app].
      split; [repeat constructor; exact Ta|].
      split; [intros m [<-|[]]; auto|]. split; [intros _; exact Pu|].
      intros _. split; [reflexivity | exact Te]. }
  assert (fst (match w unit [verify; send admin] (transporter_sendMail user)
               with
               | Fulfilled _ =>
                   ([verify; send admin; send user],
                    Responded (A:=unit) (res_status_json 200
                      (JObject
                         [("success", JBool true);
                          ("message", JString (js "Message sent successfully! You should receive a confirmation email shortly."))]%string)))
               | Rejected reason =>
                   ([verify; send admin; send user],
                    Responded (res_status_json 500
                      (failure (userErrorMessage (errorMessage reason)))))
               end) = [verify; send admin; send user]) as ->.
  { destruct (w unit [verify; send admin] (transporter_sendMail user));
      reflexivity. }
  cbn [mails flat_map sent_mail app].
  split; [repeat constructor; [exact Ta | exact Te]|].
  split; [intros m [<-|[<-|[]]]; auto|]. split; [intros _; exact Pu|].
  intros _. split; [reflexivity | exact Te].
Qed.

End EveryContactRun.

Lemma X7_witness :
  exists r,
    result Sample.all_fulfilled
      (Contact.handler Sample.markup Sample.Date_toLocaleString Sample.env
         Sample.contact) = Responded r
    /\ status r = 200.
Proof.
  destruct (X7_contact_answers_200_only_after_both_sends
              Sample.markup Sample.Date_toLocaleString Sample.env
              Sample.contact Sample.all_fulfilled) as (r & E & _ & I & _).
  exists r. split; [exact E|]. apply I.
  repeat (split; [reflexivity || (exists tt; reflexivity)|]).
  exists tt. reflexivity.
Defined.

Lemma X8_witness :
  Contact.local_at_domain_tld (js "ada@example.com").
Proof.
  destruct (X8_contact_mails_have_recipients
              Sample.markup Sample.Date_toLocaleString Sample.env
              Sample.contact Sample.all_fulfilled) as (_ & _ & H & _).
  apply H. right. left. reflexivity.
Defined.

Section EveryReceiptRun.

Import Receipt.

Variable markup : template -> nat -> jsstring.
Variable Number_toString : float -> jsstring.
Variable today now : jsstring.
Variable env : Env.
Variable req : SendReceiptRequest.
Variable w : world.

Local Abbreviation handler :=
  (Receipt.handler markup Number_toString today now env req).
Local Abbreviation customer :=
  (customerMailOptions markup Number_toString today env req).
Local Abbreviation admin :=
  (adminMailOptions markup Number_toString now env req).
Local Abbreviation send m := (Call (transporter_sendMail m)).

Local Abbreviation error_body message :=
  (JObject [("error"%string, JString message)]).

(** The run of the receipt handler, whatever the request, the environment
    and the relay. *)
Lemma receipt_run_eq :
  run w handler
  = if unconfigured env
    then ([], Responded (res_status_json 500
                           (error_body (js "Email configuration is missing"))))
    else
      match w unit [] (transporter_sendMail customer) with
      | Rejected reason =>
          ([send customer],
           Responded (res_status_json 500 (error_body (errorMessage reason))))
      | Fulfilled _ =>
          match w unit [send customer] (transporter_sendMail admin) with
          | Rejected reason =>
              ([send customer; send admin],
               Responded (res_status_json 500
                            (error_body (errorMessage reason))))
          | Fulfilled _ =>
              ([send customer; send admin],
               Responded (res_json
                 (JObject
                    [("success", JBool true);
                     ("message", JString (js "Receipts sent successfully"));
                     ("orderId", JString (orderId req))]%string)))
          end
      end.
Proof.
  destruct (unconfigured env) eqn:U;
    [apply receipt_run_unconfigured; exact U|].
  destruct (w unit [] (transporter_sendMail customer)) as [u|reason] eqn:C;
    [|apply (receipt_run_customer_rejected _ _ _ _ _ _ _ reason); assumption].
  destruct (w unit [send customer] (transporter_sendMail admin))
    as [u'|reason] eqn:A;
    [|apply (receipt_run_admin_rejected _ _ _ _ _ _ _ u reason); assumption].
  apply (receipt_run_sent _ _ _ _ _ _ _ u u'); assumption.
Qed.

(** X9. Every run of the receipt handler ends with a response of status 200
    or 500, never 400: the request is not validated, and with the
    credentials configured the mail to the customer is handed to the relay
    whatever the request holds. Without them the answer is 500, Email
    configuration is missing, and no call is made. The status is 200
    exactly when the credentials are configured and both sends are
    fulfilled; when the second send is rejected the answer is 500 although
    the customer's mail has been accepted. *)
Theorem X9_receipt_runs :
  exists r,
    result w handler = Responded r
    /\ In (status r) [200; 500]
    /\ (unconfigured env = true ->
        calls w handler = []
        /\ r = res_status_json 500
                 (error_body (js "Email configuration is missing")))
    /\ (unconfigured env = false ->
        exists rest, calls w handler = send customer :: rest)
    /\ (status r = 200
        <-> unconfigured env = false
            /\ (exists u, w unit [] (transporter_sendMail customer)
                          = Fulfilled u)
            /\ (exists u, w unit [send customer] (transporter_sendMail admin)
                          = Fulfilled u))
    /\ (unconfigured env = false ->
        (exists u, w unit [] (transporter_sendMail customer) = Fulfilled u) ->
        (exists reason, w unit [send customer] (transporter_sendMail admin)
                        = Rejected reason) ->
        status r = 500 /\ In customer (mails (calls w handler))).
Proof.
  unfold result, calls. rewrite receipt_run_eq.
  destruct (unconfigured env).
  { eexists. split; [reflexivity|]. split; [simpl; auto|].
    split; [intros _; split; reflexivity|]. split; [discriminate|].
    split; [split; [discriminate | intros (H & _); discriminate H]|].
    discriminate. }
  destruct (w unit [] (transporter_sendMail customer)) as [u|reason].
  2:{ eexists. split; [reflexivity|]. split; [simpl; auto|].
      split; [discriminate|]. split; [intros _; eexists; reflexivity|].
      split; [split; [discriminate
                     | intros (_ & (u & H) & _); discriminate H]|].
      intros _ (u & H). discriminate H. }
  destruct (w unit [send customer] (transporter_sendMail admin))
    as [u'|reason].
  2:{ eexists. split; [reflexivity|]. split; [simpl; auto|].
      split; [discriminate|]. split; [intros _; eexists; reflexivity|].
      split; [split; [discriminate
                     | intros (_ & _ & (u' & H)); discriminate H]|].
      intros _ _ _. split; [reflexivity | left; reflexivity]. }
  eexists. split; [reflexivity|]. split; [simpl; auto|].
  split; [discriminate|]. split; [intros _; eexists; reflexivity|].
  split.
  - split; [intros _|reflexivity].
    split; [reflexivity|]. split; eexists; reflexivity.
  - intros _ _ (reason & H). discriminate H.
Qed.

End EveryReceiptRun.

Lemma X9_witness :
  exists r,
    result (Sample.reject_nth 1 Sample.smtp_error)
      (Receipt.handler Sample.markup Sample.Number_toString Sample.today
         Sample.now Sample.env Sample.receipt) = Responded r
    /\ status r = 500
    /\ In (Receipt.customerMailOptions Sample.markup Sample.Number_toString
             Sample.today Sample.env Sample.receipt)
         (mails (calls (Sample.reject_nth 1 Sample.smtp_error)
                   (Receipt.handler Sample.markup Sample.Number_toString
                      Sample.today Sample.now Sample.env Sample.receipt))).
Proof.
  destruct (X9_receipt_runs
              Sample.markup Sample.Number_toString Sample.today Sample.now
              Sample.env Sample.receipt
              (Sample.reject_nth 1 Sample.smtp_error))
    as (r & E & _ & _ & _ & _ & H).
  exists r. split; [exact E|]. apply H.
  - reflexivity.
  - exists tt. reflexivity.
  - exists Sample.smtp_error. reflexivity.
Defined.

(* ===================================================================== *)
(** * Every run of the gateway handlers *)
(* ===================================================================== *)

Section EveryGatewayRun.

Variable w : world.

Lemma verify_run_retrieved s session :
  truthy s = true ->
  w _ [] (sessions_retrieve s [js "payment_intent"]) = Fulfilled session ->
  run w (Verify.handler (Verify.q_string s))
  = ([Call (sessions_retrieve s [js "payment_intent"])],
     Responded (res_json
       (JObject
          [("id", JString (Stripe.id session));
           ("payment_status", JString (Stripe.payment_status session));
           ("amount_total", Verify.JAmount (Stripe.amount_total session));
           ("customer_email",
            JOption (Stripe.session_customer_email session));
           ("metadata", Stripe.session_metadata session)]%string))).
Proof.
  unfold Verify.handler, run. simpl. intros -> H. simpl. rewrite H.
  reflexivity.
Qed.

(** X10. The verification handler answers 400 exactly when session_id is
    not a non-empty string, the empty string included, and then makes no
    call. For a non-empty string it makes exactly one call, the retrieval of
    that very session with its payment intent expanded, and a fulfilled
    retrieval is answered 200 with the id, payment status, total, customer
    email and metadata of the session as the gateway gave them. *)
Theorem X10_verify_runs (session_id : Verify.query_value) :
  exists r,
    result w (Verify.handler session_id) = Responded r
    /\ (status r = 400
        <-> forall s, session_id = Verify.q_string s -> s = [])
    /\ (status r = 400 -> calls w (Verify.handler session_id) = [])
    /\ (forall s,
          session_id = Verify.q_string s -> s <> [] ->
          calls w (Verify.handler session_id)
          = [Call (sessions_retrieve s [js "payment_intent"])]
          /\ forall session,
               w _ [] (sessions_retrieve s [js "payment_intent"])
               = Fulfilled session ->
               r = res_json
                     (JObject
                        [("id", JString (Stripe.id session));
                         ("payment_status",
                          JString (Stripe.payment_status session));
                         ("amount_total",
                          Verify.JAmount (Stripe.amount_total session));
                         ("customer_email",
                          JOption (Stripe.session_customer_email session));
                         ("metadata",
                          Stripe.session_metadata session)]%string)).
Proof.
  unfold result, calls.
  assert (forall s, s <> [] -> truthy s = true) as T
    by (intros [|c s] H; [contradiction | reflexivity]).
  destruct session_id as [|s|l|fields];
    try (rewrite verify_run_not_a_string by reflexivity;
         eexists; split; [reflexivity|];
         split; [split; [intros _ s E; discriminate E | reflexivity]|];
         split; [reflexivity|]; intros s E; discriminate E).
  destruct s as [|c s].
  { rewrite verify_run_not_a_string by reflexivity.
    eexists. split; [reflexivity|].
    split; [split; [intros _ s [= <-]; reflexivity | reflexivity]|].
    split; [reflexivity|]. intros s [= <-] H. contradiction. }
  destruct (w _ [] (sessions_retrieve (c :: s) [js "payment_intent"]))
    as [session|reason] eqn:E.
  - rewrite (verify_run_retrieved (c :: s) session eq_refl E).
    eexists. split; [reflexivity|].
    split; [split; [discriminate
                   | intros H; discriminate (H (c :: s) eq_refl)]|].
    split; [discriminate|]. intros s' [= <-] _. split; [reflexivity|].
    intros session' H. congruence.
  - rewrite (verify_run_rejected w (c :: s) reason eq_refl E).
    eexists. split; [reflexivity|].
    split; [split; [discriminate
                   | intros H; discriminate (H (c :: s) eq_refl)]|].
    split; [discriminate|]. intros s' [= <-] _. split; [reflexivity|].
    intros session' H. congruence.
Qed.

End EveryGatewayRun.

Lemma X10_witness :
  exists r,
    result Sample.all_fulfilled (Verify.handler (Verify.q_string []))
    = Responded r
    /\ status r = 400
    /\ calls Sample.all_fulfilled (Verify.handler (Verify.q_string [])) = [].
Proof.
  destruct (X10_verify_runs Sample.all_fulfilled (Verify.q_string []))
    as (r & E & I & C & _).
  exists r. split; [exact E|].
  assert (status r = 400) as S by (apply I; intros s [= <-]; reflexivity).
  split; [exact S | apply C; exact S].
Defined.

(* ===================================================================== *)
(** * More on checkout: the currency kept, the metadata *)
(* ===================================================================== *)

Section MoreCheckout.

Import Checkout.

(** X11. The effective currency is the requested one exactly when the
    requested one is among the six supported codes; then every forwarded
    line item is priced in the requested currency. Normalising twice is the
    same as normalising once. *)
Theorem X11_supported_currency_is_kept
  (req : CreateCheckoutSessionRequest) (w : world) :
  (stripeCurrency req = currency req
   <-> In (currency req) supportedCurrencies)
  /\ (In (currency req) supportedCurrencies ->
      Forall (fun li => Stripe.currency (Stripe.price_data li) = currency req)
        (forwarded req w))
  /\ stripeCurrency
       {| items := items req;
          customerEmail := customerEmail req;
          successUrl := successUrl req;
          cancelUrl := cancelUrl req;
          currency := stripeCurrency req;
          currencyMultiplier := currencyMultiplier req |}
     = stripeCurrency req.
Proof.
  assert (stripeCurrency req = currency req
          <-> In (currency req) supportedCurrencies) as I.
  { unfold stripeCurrency.
    destruct (Array_includes supportedCurrencies (currency req)) eqn:E.
    - apply Array_includes_In in E. tauto.
    - split.
      + intros <-. left. reflexivity.
      + intros H. apply Array_includes_In in H. congruence. }
  split; [exact I|]. split.
  - intros H. apply I in H. rewrite <- H. rewrite checkout_forwarded.
    apply lineItems_currency.
  - unfold stripeCurrency at 1. cbn [currency].
    pose proof (stripeCurrency_supported req) as S.
    apply Array_includes_In in S. rewrite S. reflexivity.
Qed.

(** X12. Every run of the checkout handler makes exactly one call, the
    creation of a session, and sends no mail. The metadata of that session
    carry the customer's email, the currency as it was requested, even when
    another is charged, and the number of cart items in decimal, which is
    one less than the number of line items. *)
Theorem X12_checkout_metadata
  (req : CreateCheckoutSessionRequest) (w : world) :
  exists p count,
    calls w (handler req) = [Call (sessions_create p)]
    /\ mails (calls w (handler req)) = []
    /\ Stripe.metadata p
       = [("customer_email", customerEmail req);
          ("items_count", count);
          ("original_currency", currency req)]%string
    /\ read_decimal count = Some (N.of_nat (List.length (items req)))
    /\ List.length (Stripe.line_items p) = List.length (items req) + 1
    /\ Stripe.customer_email p = customerEmail req
    /\ Stripe.success_url p = successUrl req
    /\ Stripe.cancel_url p = cancelUrl req.
Proof.
  exists (params req), (nat_toString (List.length (items req))).
  rewrite checkout_calls.
  repeat (split; [reflexivity|]).
  split; [apply read_decimal_nat_toString|].
  split; [apply lineItems_length|].
  repeat split.
Qed.

End MoreCheckout.

Lemma X11_witness :
  Forall (fun li => Stripe.currency (Stripe.price_data li) = js "NGN")
    (Checkout.forwarded Sample.checkout_ngn Sample.all_fulfilled).
Proof.
  destruct (X11_supported_currency_is_kept
              Sample.checkout_ngn Sample.all_fulfilled) as (_ & H & _).
  apply H. simpl. do 5 right. left. reflexivity.
Defined.

(* ===================================================================== *)
(** * Origins, transporter and health *)
(* ===================================================================== *)

Section Origins.

Import Cors.

Variable FRONTEND_URL : option jsstring.

Lemma allowedOrigins_eq :
  allowedOrigins FRONTEND_URL
  = js "http://localhost:5173"
      :: match FRONTEND_URL with
         | Some s => if truthy s then [s] else []
         | None => []
         end.
Proof.
  unfold allowedOrigins, filter_Boolean. cbn [flat_map].
  rewrite app_nil_r. reflexivity.
Qed.

(** X13. A request is let through by the origin check exactly when it has no
    origin (or an empty one), or its origin is, code unit for code unit, the
    local development address or the non-empty configured front end
    address; any other origin is answered with an error whose message names
    it. An empty or missing FRONTEND_URL adds nothing to the list, which
    always holds the local address. *)
Theorem X13_origin_check (origin : option jsstring) :
  (origin_callback FRONTEND_URL origin = cb_null_true
   <-> origin = None \/ origin = Some []
       \/ origin = Some (js "http://localhost:5173")
       \/ (origin = FRONTEND_URL /\ truthy_opt FRONTEND_URL = true))
  /\ (origin_callback FRONTEND_URL origin <> cb_null_true ->
      exists s,
        origin = Some s
        /\ origin_callback FRONTEND_URL origin
           = cb_error (ErrorObject (js "CORS blocked for origin: " ++ s)))
  /\ In (js "http://localhost:5173") (allowedOrigins FRONTEND_URL)
  /\ ~ In [] (allowedOrigins FRONTEND_URL)
  /\ (truthy_opt FRONTEND_URL = false ->
      allowedOrigins FRONTEND_URL = [js "http://localhost:5173"]).
Proof.
  assert (forall s, Array_includes (allowedOrigins FRONTEND_URL) s = true
                    <-> s = js "http://localhost:5173"
                        \/ (Some s = FRONTEND_URL /\ truthy s = true)) as A.
  { intros s. rewrite Array_includes_In, allowedOrigins_eq.
    destruct FRONTEND_URL as [f|]; [destruct (truthy f) eqn:T|]; simpl.
    - split.
      + intros [H|[H|[]]]; [left; congruence|].
        right. subst f. split; [reflexivity | exact T].
      + intros [H|[H _]]; [left; congruence|].
        right. left. congruence.
    - split.
      + intros [H|[]]. left. congruence.
      + intros [H|[H T']]; [left; congruence|].
        injection H as ->. congruence.
    - split.
      + intros [H|[]]. left. congruence.
      + intros [H|[H _]]; [left; congruence | discriminate H]. }
  split; [|split; [|split; [|split]]].
  - unfold origin_callback. destruct origin as [[|c s]|]; cbn [truthy_opt truthy negb interp].
    + split; auto.
    + destruct (Array_includes (allowedOrigins FRONTEND_URL) (c :: s)) eqn:E.
      * apply A in E. split; [intros _|reflexivity].
        destruct E as [->|[<- T]];
          [right; right; left; reflexivity
          |right; right; right; split; reflexivity].
      * split; [discriminate|]. intros [H|[H|[H|[H T]]]]; try discriminate.
        -- assert (Array_includes (allowedOrigins FRONTEND_URL) (c :: s) = true)
             by (apply A; left; congruence). congruence.
        -- assert (Array_includes (allowedOrigins FRONTEND_URL) (c :: s) = true)
             by (apply A; right; split; [exact H | reflexivity]). congruence.
    + split; auto.
  - unfold origin_callback. destruct origin as [[|c s]|]; cbn [truthy_opt truthy negb interp];
      try (intros H; contradiction H; reflexivity).
    destruct (Array_includes (allowedOrigins FRONTEND_URL) (c :: s));
      [intros H; contradiction H; reflexivity|].
    intros _. eexists. split; reflexivity.
  - rewrite allowedOrigins_eq. left. reflexivity.
  - rewrite allowedOrigins_eq. intros [H|H]; [discriminate H|].
    destruct FRONTEND_URL as [[|c f]|]; simpl in H; intuition discriminate.
  - intros T. rewrite allowedOrigins_eq.
    destruct FRONTEND_URL as [f|]; [|reflexivity].
    simpl in T. rewrite T. reflexivity.
Qed.

End Origins.

Lemma X13_witness :
  exists s,
    Some (js "http://localhost:5173/") = Some s
    /\ Cors.origin_callback (Some (js "https://shop.example"))
         (Some (js "http://localhost:5173/"))
       = Cors.cb_error (ErrorObject (js "CORS blocked for origin: " ++ s)).
Proof.
  destruct (X13_origin_check (Some (js "https://shop.example"))
              (Some (js "http://localhost:5173/"))) as (_ & H & _).
  apply H. vm_compute. discriminate.
Defined.

Section TransporterConfig.

Import Transporter.

Variable parseInt : jsstring -> float.
Variables SMTP_HOST SMTP_PORT SMTP_SECURE : option jsstring.
Variable env : Env.

Local Abbreviation config :=
  (getTransporter_config parseInt SMTP_HOST SMTP_PORT SMTP_SECURE env).

(** X14. Whatever the environment holds, the transporter is configured for
    implicit TLS (SMTP_SECURE has no effect), with certificate checks off
    and a non-empty host; a missing or empty SMTP_HOST or SMTP_PORT gives
    the host adisaolashile.com and the port read from 465, a non-empty one
    is used as it is; and the credentials are those of the environment. *)
Theorem X14_transporter_config :
  secure config = true
  /\ tls_rejectUnauthorized config = false
  /\ truthy (host config) = true
  /\ (truthy_opt SMTP_HOST = false -> host config = js "adisaolashile.com")
  /\ (truthy_opt SMTP_HOST = true -> Some (host config) = SMTP_HOST)
  /\ (truthy_opt SMTP_PORT = false -> port config = parseInt (js "465"))
  /\ (forall s, SMTP_PORT = Some s -> s <> [] -> port config = parseInt s)
  /\ auth_user config = EMAIL_USER env
  /\ auth_pass config = EMAIL_PASS env.
Proof.
  cbn [secure tls_rejectUnauthorized host port auth_user auth_pass
       getTransporter_config].
  split; [apply orb_true_r|]. split; [reflexivity|].
  split; [destruct SMTP_HOST as [[|c s]|]; reflexivity|].
  split; [destruct SMTP_HOST as [[|c s]|]; try reflexivity; discriminate|].
  split; [destruct SMTP_HOST as [[|c s]|]; try reflexivity; discriminate|].
  split; [destruct SMTP_PORT as [[|c s]|]; try reflexivity; discriminate|].
  split; [|split; reflexivity].
  intros s -> H. destruct s; [contradiction | reflexivity].
Qed.

End TransporterConfig.

Lemma X14_witness :
  Transporter.host
    (Transporter.getTransporter_config (fun _ => 465%float)
       (Some []) None (Some (js "false")) Sample.env)
  = js "adisaolashile.com"
  /\ Transporter.port
       (Transporter.getTransporter_config (fun _ => 465%float)
          (Some []) (Some (js "587")) (Some (js "false")) Sample.env)
     = 465%float.
Proof.
  split.
  - destruct (X14_transporter_config (fun _ => 465%float)
                (Some []) None (Some (js "false")) Sample.env)
      as (_ & _ & _ & H & _).
    apply H. reflexivity.
  - destruct (X14_transporter_config (fun _ => 465%float)
                (Some []) (Some (js "587")) (Some (js "false")) Sample.env)
      as (_ & _ & _ & _ & _ & _ & H & _).
    apply (H (js "587")); [reflexivity | discriminate].
Defined.

Section HealthReport.

Variable markup : template -> nat -> jsstring.
Variable Number_toString : float -> jsstring.
Variable Date_toLocaleString : nat -> jsstring.
Variable today now Date_toISOString : jsstring.
Variable env : Env.

(** X15. The health endpoint makes no call and always answers 200. Its
    emailConfigured flag is false exactly when the mail handlers refuse to
    work: then a contact request that passes validation is answered 500,
    Email service is not configured, and every receipt request 500, Email
    configuration is missing, neither making a call. When the flag is true
    a valid contact request reaches the relay's verification and a receipt
    request reaches the send to the customer. *)
Theorem X15_health_flag_agrees_with_the_mail_handlers
  (w : world) (creq : Contact.ContactFormRequest)
  (rreq : Receipt.SendReceiptRequest) :
  run w (Health.handler Date_toISOString env)
  = ([], Responded (res_status_json 200
           (JObject [("status", JString (js "OK"));
                     ("timestamp", JString Date_toISOString);
                     ("emailConfigured",
                      JBool (Health.emailConfigured env))]%string)))
  /\ Health.emailConfigured env = negb (unconfigured env)
  /\ (Health.emailConfigured env = false ->
      (Contact.missing creq = false -> Contact.malformed creq = false ->
       run w (Contact.handler markup Date_toLocaleString env creq)
       = ([], Responded (res_status_json 500
                 (Contact.failure "Email service is not configured"))))
      /\ run w (Receipt.handler markup Number_toString today now env rreq)
         = ([], Responded (res_status_json 500
                  (JObject [("error"%string,
                             JString (js "Email configuration is missing"))]))))
  /\ (Health.emailConfigured env = true ->
      (Contact.missing creq = false -> Contact.malformed creq = false ->
       exists rest,
         calls w (Contact.handler markup Date_toLocaleString env creq)
         = Call transporter_verify :: rest)
      /\ exists rest,
           calls w (Receipt.handler markup Number_toString today now env rreq)
           = Call (transporter_sendMail
                     (Receipt.customerMailOptions markup Number_toString
                        today env rreq)) :: rest).
Proof.
  assert (Health.emailConfigured env = negb (unconfigured env)) as E.
  { unfold Health.emailConfigured, Health.and_then, unconfigured.
    destruct (truthy_opt (EMAIL_USER env)) eqn:U;
      [destruct (truthy_opt (EMAIL_PASS env)); reflexivity|].
    rewrite U. reflexivity. }
  split; [reflexivity|]. split; [exact E|]. rewrite E. split.
  - intros U. apply negb_false_iff in U. split.
    + intros M F. apply contact_run_unconfigured; assumption.
    + apply receipt_run_unconfigured. exact U.
  - intros U. apply negb_true_iff in U. split.
    + intros M F. unfold calls. rewrite contact_run_eq, M, F, U.
      destruct (w unit [] transporter_verify); [|eexists; reflexivity].
      destruct (w unit _ (transporter_sendMail
                            (Contact.adminMailOptions _ _ _ _)));
        [|eexists; reflexivity].
      destruct (w unit _ (transporter_sendMail
                            (Contact.userMailOptions _ _ _)));
        eexists; reflexivity.
    + unfold calls. rewrite receipt_run_eq, U.
      destruct (w unit [] _); [|eexists; reflexivity].
      destruct (w unit _ (transporter_sendMail
                            (Receipt.adminMailOptions _ _ _ _ _)));
        eexists; reflexivity.
Qed.

End HealthReport.

Lemma X15_witness :
  run Sample.all_fulfilled
    (Contact.handler Sample.markup Sample.Date_toLocaleString Sample.no_env
       Sample.contact)
  = ([], Responded (res_status_json 500
            (Contact.failure "Email service is not configured"))).
Proof.
  destruct (X15_health_flag_agrees_with_the_mail_handlers
              Sample.markup Sample.Number_toString Sample.Date_toLocaleString
              Sample.today Sample.now (js "2026-02-02T10:00:00.000Z")
              Sample.no_env Sample.all_fulfilled Sample.contact
              Sample.receipt) as (_ & _ & H & _).
  destruct (H eq_refl) as (H' & _). apply H'; reflexivity.
Defined.

(* ===================================================================== *)
(** * What an accepted email looks like *)
(* ===================================================================== *)

Section AcceptedEmail.

Import RegExp.

Lemma not_space_at_count l :
  Forall (fun c => not_space_at c = true) l ->
  count_occ N.eq_dec l at_sign = 0 /\ Forall (fun c => white_space c = false) l.
Proof.
  induction 1 as [|c l Hc _ [IH1 IH2]]; [split; [reflexivity|constructor]|].
  unfold not_space_at in Hc. apply negb_true_iff, orb_false_iff in Hc.
  destruct Hc as [W A]. apply N.eqb_neq in A. split.
  - cbn [count_occ]. destruct (N.eq_dec c at_sign); [contradiction|exact IH1].
  - constructor; assumption.
Qed.

(** X16. An email that passes the contact handler's pattern holds exactly
    one at sign, no white space, at least one full stop after the at sign,
    and at least five code units; it is a string local@domain.tld, and
    every such string passes. *)
Theorem X16_accepted_email (s : jsstring) :
  (test Contact.emailRegex s = true <-> Contact.local_at_domain_tld s)
  /\ (test Contact.emailRegex s = true ->
      count_occ N.eq_dec s at_sign = 1
      /\ Forall (fun c => white_space c = false) s
      /\ 5 <= List.length s
      /\ exists local rest,
           s = local ++ at_sign :: rest
           /\ local <> [] /\ In full_stop rest /\ ~ In at_sign rest).
Proof.
  split; [apply emailRegex_test_iff|].
  intros H. apply emailRegex_test_iff in H.
  destruct H as (l & d & t & -> & Nl & Nd & Nt & F).
  apply Forall_app in F. destruct F as [Fl F].
  apply Forall_app in F. destruct F as [Fd Ft].
  destruct (not_space_at_count l Fl) as [Cl Wl].
  destruct (not_space_at_count d Fd) as [Cd Wd].
  destruct (not_space_at_count t Ft) as [Ct Wt].
  split; [|split; [|split]].
  - rewrite !count_occ_app. unfold code_unit in *.
    rewrite Cl, Cd, Ct. reflexivity.
  - repeat (apply Forall_app; split); try assumption;
      repeat constructor.
  - rewrite !length_app. cbn [List.length].
    destruct l; [contradiction|]. destruct d; [contradiction|].
    destruct t; [contradiction|]. simpl. lia.
  - exists l, (d ++ [full_stop] ++ t). split; [reflexivity|].
    split; [exact Nl|]. split.
    + apply in_or_app. right. left. reflexivity.
    + intros H. apply (count_occ_In N.eq_dec) in H.
      rewrite !count_occ_app in H. unfold code_unit in *.
      rewrite Cd, Ct in H. simpl in H. lia.
Qed.

End AcceptedEmail.

Lemma X16_witness :
  count_occ N.eq_dec (js "ada@example.com") RegExp.at_sign = 1.
Proof.
  destruct (X16_accepted_email (js "ada@example.com")) as (_ & H).
  destruct (H eq_refl) as (C & _). exact C.
Defined.
